(** * Track: the media track of track.go

    A shallow embedding of [Track] and its methods, and the properties of
    its inbound path (Read, peek, ReadRTP, determinePayloadType), of its
    outbound path (Write, WriteSample, WriteRTP) and of its constructor.

    The track's methods are sequential Go code that mutates the track and
    calls into collaborators (a receiver, senders, a packetizer, the RTP
    packet type).  They are embedded in a state monad over the track, the
    state of the collaborators and the log of the calls made to them; a run
    either returns or panics (a slice expression out of range, a nil
    dereference).  The reader/writer lock of the track does nothing in a
    sequential run: the places where it is taken and released are kept as
    comments next to the field accesses they guard. *)

From Stdlib Require Import String.
From Stdlib Require Import List ZArith NArith Bool Lia.
From Stdlib Require Import Init.Byte.
Import ListNotations.

Set Implicit Arguments.

(** ** Data *)

(** Go's [error] interface; a nil error is [None] of [option error].
    The three track errors and io.ErrClosedPipe are sentinel values;
    [Err] stands for the errors of the collaborators; [multiError] is the
    aggregate built by util.FlattenErrs. *)
#[warnings="-register-all"] Inductive error : Type :=
| errTrackLocalTrackRead
| errTrackLocalTrackWrite
| errTrackSSRCNewTrackZero
| ErrClosedPipe
| Err (msg : string)
| multiError (errs : list error).

(** Modelled from the spec: the codec type of rtpcodec.go, which is not
    part of the sources at hand; "kind (media type: audio/video)". *)
Inductive RTPCodecType : Type :=
| RTPCodecTypeAudio
| RTPCodecTypeVideo.

(** The types of pion/rtp and pion/webrtc/pkg/media that the track uses. *)
Module rtp.

(** Interface values are opaque handles. *)
Definition Payloader := nat.
Definition Sequencer := nat.

Record Header : Type := mkHeader {
  Marker : bool;
  PayloadType : N;
  SequenceNumber : N;
  Timestamp : N;
  SSRC : N
}.

(** Packet embeds Header: p.PayloadType is [PayloadType (PacketHeader p)]. *)
Record Packet : Type := mkPacket {
  PacketHeader : Header;
  Payload : list byte
}.

(** The packetizer that NewPacketizer returns, as the arguments it was
    built from. *)
Record Packetizer : Type := NewPacketizer {
  pkMTU : Z;
  pkPayloadType : N;
  pkSSRC : N;
  pkPayloader : Payloader;
  pkSequencer : Sequencer;
  pkClockRate : N
}.

End rtp.

Module media.

Record Sample : Type := mkSample {
  Data : list byte;
  Samples : N
}.

End media.

(** Pointers to senders and receivers are opaque handles. *)
Definition RTPSender := nat.
Definition RTPReceiver := nat.

(** The fields of RTPCodec that NewTrack reads. *)
Record RTPCodec : Type := mkRTPCodec {
  Type_ : RTPCodecType;
  ClockRate : N;
  Payloader : rtp.Payloader
}.

Definition rtpOutboundMTU : Z := 1200.
Definition trackDefaultIDLength : Z := 16.
Definition trackDefaultLabelLength : Z := 16.

(** The struct Track, without its lock.  uint8 and uint32 are in N, int is
    in Z.  Pointer and slice fields that the code compares with nil, or
    dereferences, are options; [peeked = Some []] is an empty slice that is
    not nil. *)
Record Track : Type := mkTrack {
  id : string;
  payloadType : N;
  kind : RTPCodecType;
  label : string;
  ssrc : N;
  codec : option RTPCodec;
  rid : string;
  packetizer : option rtp.Packetizer;
  receiver : option RTPReceiver;
  activeSenders : list RTPSender;
  totalSenderCount : Z;
  peeked : option (list byte)
}.

Definition set_peeked (v : option (list byte)) (t : Track) : Track :=
  mkTrack (id t) (payloadType t) (kind t) (label t) (ssrc t) (codec t) (rid t)
          (packetizer t) (receiver t) (activeSenders t) (totalSenderCount t) v.

Definition set_payloadType (v : N) (t : Track) : Track :=
  mkTrack (id t) v (kind t) (label t) (ssrc t) (codec t) (rid t)
          (packetizer t) (receiver t) (activeSenders t) (totalSenderCount t)
          (peeked t).

(** ** The monad of the code

    A computation over a state [S] returns a value and a new state, or
    panics. *)

Inductive Outcome (S A : Type) : Type :=
| Returns (a : A) (s : S)
| Panics.

Arguments Panics {S A}.

Definition M (S A : Type) : Type := S -> Outcome S A.

Definition ret {S A} (a : A) : M S A := fun s => Returns a s.

Definition bind {S A B} (m : M S A) (k : A -> M S B) : M S B :=
  fun s => match m s with
           | Returns a s' => k a s'
           | Panics => Panics
           end.

Definition panic {S A} : M S A := fun _ => Panics.

Declare Scope go_scope.
Delimit Scope go_scope with go.
Notation "x <- m ;; k" := (bind m (fun x => k))
  (at level 61, m at next level, right associativity) : go_scope.
Notation "' p <- m ;; k" := (bind m (fun x => match x with p => k end))
  (at level 61, p pattern, m at next level, right associativity) : go_scope.
Notation "m ;;; k" := (bind m (fun _ => k))
  (at level 61, right associativity) : go_scope.
Open Scope go_scope.

(** ** Slices of bytes *)

(** make([]byte, n) for a constant n *)
Definition make (n : nat) : list byte := repeat x00 n.

(** make([]byte, n) for an int n: a negative length panics. *)
Definition make_int {S} (n : Z) : M S (list byte) :=
  if (n <? 0)%Z then panic else ret (make (Z.to_nat n)).

(** b[:n] for an int n: it panics unless 0 <= n <= cap(b).  The slices the
    track slices come from make, so that their capacity is their length. *)
Definition slice_to {S} (b : list byte) (n : Z) : M S (list byte) :=
  if ((0 <=? n) && (n <=? Z.of_nat (length b)))%Z
  then ret (firstn (Z.to_nat n) b)
  else panic.

(** copy(dst, src): the new contents of dst and the number of bytes copied. *)
Definition copy (dst src : list byte) : list byte * Z :=
  let n := Nat.min (length dst) (length src) in
  (firstn n src ++ skipn n dst, Z.of_nat n).

(** What a callee that was handed the slice [b] can leave in it: it writes
    inside the bounds of [b] and cannot change its length. *)
Definition overlay (b written : list byte) : list byte :=
  firstn (length b) written ++ skipn (length written) b.

(** ** Collaborators *)

(** The calls a track makes to its receiver, its senders and its
    packetizer. *)
Inductive Call : Type :=
| CallReadRTP (r : RTPReceiver) (len : nat)
| CallSendRTP (s : RTPSender) (h : rtp.Header) (payload : list byte)
| CallPacketize (pk : rtp.Packetizer) (data : list byte) (samples : N).

(** The collaborators of a track.  [World] is their state: the network, the
    random generator, the sequence numbers of the packetizers.  None of
    them writes to the track. *)
Class Collaborators : Type := {
  World : Type;
  (** receiveMTU, a constant declared in another file of the package *)
  receiveMTU : nat;
  (** RTPReceiver.readRTP(b, t): what it writes to b, then n and err *)
  readRTP : RTPReceiver -> list byte -> Track -> World ->
            (list byte * Z * option error) * World;
  (** RTPSender.SendRTP(header, payload) *)
  SendRTP : RTPSender -> rtp.Header -> list byte -> World ->
            (Z * option error) * World;
  (** rtp.Packet.Unmarshal(b) on an empty packet: the error or the packet *)
  Unmarshal : list byte -> error + rtp.Packet;
  (** rtp.Packetizer.Packetize(data, samples) *)
  Packetize : rtp.Packetizer -> list byte -> N -> World ->
              list rtp.Packet * World;
  (** rtp.NewRandomSequencer() *)
  NewRandomSequencer : World -> rtp.Sequencer * World
}.

(** Modelled from the spec: util.FlattenErrs of internal/util, which is not
    part of the sources at hand.  "Errors from individual senders are
    collected into an aggregate; if the collection is empty the call
    succeeds, otherwise it fails with a combined error that preserves each
    underlying error's identity/message". *)
Definition FlattenErrs (errs : list error) : option error :=
  match errs with
  | [] => None
  | _ :: _ => Some (multiError errs)
  end.


Definition is_nil {A} (p : option A) : bool :=
  match p with
  | None => true
  | Some _ => false
  end.

Section TrackMethods.

Context {C : Collaborators}.

(** The state of a run: the track, the world, and the calls made so far. *)
Record St : Type := mkSt {
  track : Track;
  world : World;
  calls : list Call
}.

(** t.f, and an assignment to a field of t *)
Definition load {A} (f : Track -> A) : M St A :=
  fun s => Returns (f (track s)) s.

Definition store (upd : Track -> Track) : M St unit :=
  fun s => Returns tt (mkSt (upd (track s)) (world s) (calls s)).

(** A call to a collaborator is logged and acts on the world. *)
Definition call {A} (c : Call) (f : World -> A * World) : M St A :=
  fun s => let (a, w) := f (world s) in
           Returns a (mkSt (track s) w (calls s ++ [c])).

(** ** Accessors *)

Definition ID : M St string := load id.
Definition RID : M St string := load rid.
Definition PayloadType : M St N := load payloadType.
Definition Kind : M St RTPCodecType := load kind.
Definition Label : M St string := load label.
Definition SSRC : M St N := load ssrc.
Definition Codec : M St (option RTPCodec) := load codec.
Definition Packetizer : M St (option rtp.Packetizer) := load packetizer.

Definition Msid : M St string :=
  l <- Label ;;
  i <- ID ;;
  ret (l ++ " " ++ i)%string.

(** ** Inbound path *)

(** Read returns the contents of b after the call, n and err. *)
Definition Read (b : list byte) : M St (list byte * Z * option error) :=
  (* t.mu.RLock() *)
  r <- load receiver ;;
  total <- load totalSenderCount ;;
  if negb (total =? 0)%Z || is_nil r then
    (* t.mu.RUnlock() *)
    ret (b, 0%Z, Some errTrackLocalTrackRead)
  else
    pk <- load peeked ;;
    let peeked_ := negb (is_nil pk) in
    (* t.mu.RUnlock() *)
    claimed <-
      (if peeked_ then
         (* t.mu.Lock() *)
         data <- load peeked ;;
         store (set_peeked None) ;;;
         (* t.mu.Unlock() *)
         match data with
         | Some d => let (b', n) := copy b d in ret (Some (b', n, None))
         | None => ret None
         end
       else ret None) ;;
    match claimed with
    | Some res => ret res
    | None =>
        match r with
        | Some rcv =>
            t <- load (fun t => t) ;;
            '(w, n, err) <- call (CallReadRTP rcv (length b)) (readRTP rcv b t) ;;
            ret (overlay b w, n, err)
        | None => panic
        end
    end.

(** peek is like Read, but it doesn't discard the packet read *)
Definition peek (b : list byte) : M St (list byte * Z * option error) :=
  '(b, n, err) <- Read b ;;
  match err with
  | Some _ => ret (b, n, err)
  | None =>
      (* t.mu.Lock() *)
      data <- make_int n ;;
      bn <- slice_to b n ;;
      let (data, n) := copy data bn in
      store (set_peeked (Some data)) ;;;
      (* t.mu.Unlock() *)
      ret (b, n, None)
  end.

(** ReadRTP wraps Read and unmarshals *)
Definition ReadRTP : M St (option rtp.Packet * option error) :=
  let b := make receiveMTU in
  '(b, i, err) <- Read b ;;
  match err with
  | Some e => ret (None, Some e)
  | None =>
      bi <- slice_to b i ;;
      match Unmarshal bi with
      | inl e => ret (None, Some e)
      | inr r => ret (Some r, None)
      end
  end.

(** ** Outbound path *)

(** The loop of WriteRTP over the snapshot of the senders. *)
Fixpoint WriteRTP_range (senders : list RTPSender) (p : rtp.Packet)
         (writeErrs : list error) : M St (list error) :=
  match senders with
  | [] => ret writeErrs
  | s :: senders' =>
      '(_, err) <- call (CallSendRTP s (rtp.PacketHeader p) (rtp.Payload p))
                        (SendRTP s (rtp.PacketHeader p) (rtp.Payload p)) ;;
      match err with
      | Some e => WriteRTP_range senders' p (writeErrs ++ [e])
      | None => WriteRTP_range senders' p writeErrs
      end
  end.

(** WriteRTP writes RTP packets to the track *)
Definition WriteRTP (p : rtp.Packet) : M St (option error) :=
  (* t.mu.RLock() *)
  r <- load receiver ;;
  if negb (is_nil r) then
    (* t.mu.RUnlock() *)
    ret (Some errTrackLocalTrackWrite)
  else
    senders <- load activeSenders ;;
    totalSenderCount <- load totalSenderCount ;;
    (* t.mu.RUnlock() *)
    if (totalSenderCount =? 0)%Z then
      ret (Some ErrClosedPipe)
    else
      writeErrs <- WriteRTP_range senders p [] ;;
      ret (FlattenErrs writeErrs).

(** The argument of WriteRTP is a pointer to a packet.  [WriteRTP] above
    is WriteRTP on a pointer that is not nil; [WriteRTP_ptr] is WriteRTP on
    any pointer.  The loop evaluates &p.Header and p.Payload for every
    sender: on a nil p this is a nil dereference, before SendRTP is
    called. *)
Fixpoint WriteRTP_ptr_range (senders : list RTPSender) (p : option rtp.Packet)
         (writeErrs : list error) : M St (list error) :=
  match senders with
  | [] => ret writeErrs
  | s :: senders' =>
      match p with
      | None => panic
      | Some pk =>
          '(_, err) <- call (CallSendRTP s (rtp.PacketHeader pk)
                                         (rtp.Payload pk))
                            (SendRTP s (rtp.PacketHeader pk) (rtp.Payload pk)) ;;
          match err with
          | Some e => WriteRTP_ptr_range senders' p (writeErrs ++ [e])
          | None => WriteRTP_ptr_range senders' p writeErrs
          end
      end
  end.

Definition WriteRTP_ptr (p : option rtp.Packet) : M St (option error) :=
  (* t.mu.RLock() *)
  r <- load receiver ;;
  if negb (is_nil r) then
    (* t.mu.RUnlock() *)
    ret (Some errTrackLocalTrackWrite)
  else
    senders <- load activeSenders ;;
    totalSenderCount <- load totalSenderCount ;;
    (* t.mu.RUnlock() *)
    if (totalSenderCount =? 0)%Z then
      ret (Some ErrClosedPipe)
    else
      writeErrs <- WriteRTP_ptr_range senders p [] ;;
      ret (FlattenErrs writeErrs).

(** Write writes data to the track *)
Definition Write (b : list byte) : M St (Z * option error) :=
  match Unmarshal b with
  | inl e => ret (0%Z, Some e)
  | inr packet =>
      err <- WriteRTP packet ;;
      match err with
      | Some e => ret (0%Z, Some e)
      | None => ret (Z.of_nat (length b), None)
      end
  end.

(** The loop of WriteSample over the packets. *)
Fixpoint WriteSample_range (packets : list rtp.Packet) : M St (option error) :=
  match packets with
  | [] => ret None
  | p :: packets' =>
      err <- WriteRTP p ;;
      match err with
      | Some e => ret (Some e)
      | None => WriteSample_range packets'
      end
  end.

(** WriteSample packetizes and writes to the track *)
Definition WriteSample (s : media.Sample) : M St (option error) :=
  pz <- load packetizer ;;
  match pz with
  | None => panic
  | Some pz =>
      packets <- call (CallPacketize pz (media.Data s) (media.Samples s))
                      (Packetize pz (media.Data s) (media.Samples s)) ;;
      WriteSample_range packets
  end.

(** ** Construction *)

(** NewTrack initializes a new track.  It runs over the world alone: the
    track it returns is a new one. *)
Definition NewTrack (payloadType ssrc : N) (id label : string)
           (codec : option RTPCodec) : M World (option Track * option error) :=
  if (ssrc =? 0)%N then
    ret (None, Some errTrackSSRCNewTrackZero)
  else
    match codec with
    | None => panic
    | Some c =>
        sequencer <- (fun w => let (sq, w') := NewRandomSequencer w in
                               Returns sq w') ;;
        let packetizer :=
          rtp.NewPacketizer rtpOutboundMTU payloadType ssrc (Payloader c)
                            sequencer (ClockRate c) in
        ret (Some (mkTrack id payloadType (Type_ c) label ssrc codec ""
                           (Some packetizer) None [] 0 None),
             None)
    end.

(** determinePayloadType reads a single packet to determine the
    PayloadType of the track *)
Definition determinePayloadType : M St (option error) :=
  let b := make receiveMTU in
  '(b, n, err) <- peek b ;;
  match err with
  | Some e => ret (Some e)
  | None =>
      bn <- slice_to b n ;;
      match Unmarshal bn with
      | inl e => ret (Some e)
      | inr r =>
          (* t.mu.Lock() *)
          store (set_payloadType (rtp.PayloadType (rtp.PacketHeader r))) ;;;
          (* defer t.mu.Unlock() *)
          ret None
      end
  end.

End TrackMethods.

(** ** The vocabulary of the statements *)

Section FanOut.

Context {C : Collaborators}.

(** What the senders answer when each one of them is sent the packet, one
    after the other, whatever the others answered; and the world they
    leave. *)
Fixpoint send_each (senders : list RTPSender) (p : rtp.Packet) (w : World)
  : list (option error) * World :=
  match senders with
  | [] => ([], w)
  | s :: senders' =>
      let '(_, err, w1) := SendRTP s (rtp.PacketHeader p) (rtp.Payload p) w in
      let (errs, w2) := send_each senders' p w1 in
      (err :: errs, w2)
  end.

(** The errors among the answers, in the order of the senders. *)
Fixpoint failures (answers : list (option error)) : list error :=
  match answers with
  | [] => []
  | Some e :: answers' => e :: failures answers'
  | None :: answers' => failures answers'
  end.

(** The state after the packet in the peeked slot was claimed. *)
Definition claimed_state (s : St) : St :=
  mkSt (set_peeked None (track s)) (world s) (calls s).

(** One call of SendRTP per sender, in the order of the list. *)
Definition send_calls (senders : list RTPSender) (p : rtp.Packet) : list Call :=
  map (fun sd => CallSendRTP sd (rtp.PacketHeader p) (rtp.Payload p)) senders.

(** The calls of one WriteRTP on the track [t]: none when the write is
    refused, one per active sender otherwise. *)
Definition sends (t : Track) (p : rtp.Packet) : list Call :=
  if negb (is_nil (receiver t)) || (totalSenderCount t =? 0)%Z then []
  else map (fun s => CallSendRTP s (rtp.PacketHeader p) (rtp.Payload p))
           (activeSenders t).

(** WriteRTP is called on each packet of [ps] in turn, from the state [s]
    to the state [s'], and every call succeeds. *)
Inductive writes_ok : list rtp.Packet -> St -> St -> Prop :=
| writes_ok_nil : forall s, writes_ok [] s s
| writes_ok_cons : forall p ps s s1 s2,
    WriteRTP p s = Returns None s1 ->
    writes_ok ps s1 s2 ->
    writes_ok (p :: ps) s s2.

(** The receiver keeps the contract of a reader: when it returns no
    error, the count it returns is within the buffer it was handed. *)
Definition receiver_in_bounds : Prop :=
  forall (r : RTPReceiver) (b : list byte) (t : Track) (w : World),
    snd (fst (readRTP r b t w)) = None ->
    (0 <= snd (fst (fst (readRTP r b t w))) <= Z.of_nat (length b))%Z.

End FanOut.

(** ** Test doubles

    A receiver that delivers the packets of a queue, senders that fail
    when they are stopped or when the payload starts with 0xff, a
    packetizer that makes one packet of every byte of the sample, and the
    fixed 12-byte header of RTP. *)

Module Mock.

Record MockWorld : Type := mkWorld {
  inbound : list (list byte);
  stopped : list RTPSender;
  sent : nat;
  next_seq : N
}.

Definition mock_readRTP (r : RTPReceiver) (b : list byte) (t : Track)
           (w : MockWorld)
  : (list byte * Z * option error) * MockWorld :=
  match inbound w with
  | [] => (([], 0%Z, Some (Err "EOF")), w)
  | pkt :: rest =>
      let w' := mkWorld rest (stopped w) (sent w) (next_seq w) in
      if (length pkt <=? length b)%nat
      then ((pkt, Z.of_nat (length pkt), None), w')
      else (([], 0%Z, Some (Err "short buffer")), w')
  end.

Definition mock_SendRTP (s : RTPSender) (h : rtp.Header)
           (payload : list byte) (w : MockWorld)
  : (Z * option error) * MockWorld :=
  if existsb (Nat.eqb s) (stopped w) then
    ((0%Z, Some (Err "sender stopped")), w)
  else
    match payload with
    | xff :: _ => ((0%Z, Some (Err "write failed")), w)
    | _ => ((Z.of_nat (length payload), None),
            mkWorld (inbound w) (stopped w) (S (sent w)) (next_seq w))
    end.

Fixpoint be (bs : list byte) (acc : N) : N :=
  match bs with
  | [] => acc
  | b :: bs' => be bs' (acc * 256 + Byte.to_N b)
  end.

Definition mock_Unmarshal (b : list byte) : error + rtp.Packet :=
  if (length b <? 12)%nat then inl (Err "RTP header size insufficient")
  else
    let b1 := Byte.to_N (nth 1 b x00) in
    inr (rtp.mkPacket
           (rtp.mkHeader (N.testbit b1 7) (N.land b1 127)
                         (be (firstn 2 (skipn 2 b)) 0)
                         (be (firstn 4 (skipn 4 b)) 0)
                         (be (firstn 4 (skipn 8 b)) 0))
           (skipn 12 b)).

Fixpoint one_per_byte (pz : rtp.Packetizer) (data : list byte) (seq : N)
  : list rtp.Packet :=
  match data with
  | [] => []
  | d :: data' =>
      rtp.mkPacket (rtp.mkHeader false (rtp.pkPayloadType pz) seq 0
                                 (rtp.pkSSRC pz)) [d]
      :: one_per_byte pz data' (seq + 1)
  end.

Definition mock_Packetize (pz : rtp.Packetizer) (data : list byte)
           (samples : N) (w : MockWorld) : list rtp.Packet * MockWorld :=
  (one_per_byte pz data (next_seq w),
   mkWorld (inbound w) (stopped w) (sent w)
           (next_seq w + N.of_nat (length data))).

Definition mock_NewRandomSequencer (w : MockWorld)
  : rtp.Sequencer * MockWorld :=
  (N.to_nat (next_seq w), w).

#[export] Instance collaborators : Collaborators := {|
  World := MockWorld;
  receiveMTU := 1460;
  readRTP := mock_readRTP;
  SendRTP := mock_SendRTP;
  Unmarshal := mock_Unmarshal;
  Packetize := mock_Packetize;
  NewRandomSequencer := mock_NewRandomSequencer
|}.

Definition opus : RTPCodec := mkRTPCodec RTPCodecTypeAudio 48000 7.

Definition pz : rtp.Packetizer :=
  rtp.NewPacketizer rtpOutboundMTU 111 5000 7 0 48000.

(** A local track with the senders 1, 2 and 3, and a remote track. *)
Definition local_track : Track :=
  mkTrack "audio" 111 RTPCodecTypeAudio "pion" 5000 (Some opus) ""
          (Some pz) None [1; 2; 3] 3 None.

Definition remote_track : Track :=
  mkTrack "video" 0 RTPCodecTypeVideo "remote" 6000 None ""
          None (Some 9) [] 0 None.

(** A twelve-byte header with payload type 96 and two bytes of payload;
    and four bytes that are no RTP packet. *)
Definition rtp_bytes : list byte :=
  [x80; x60; x00; x01; x00; x00; x00; x0a; x00; x00; x17; x70; xca; xfe].

Definition junk : list byte := [x01; x02; x03; x04].

Definition quiet : MockWorld := mkWorld [] [] 0 0.

Definition state (t : Track) (w : MockWorld) (cs : list Call) : St :=
  mkSt t w cs.

Definition start (t : Track) (w : MockWorld) : St := state t w [].

(** A track without receiver and without sender, and a local track of
    which no sender is active. *)
Definition fresh_track : Track :=
  mkTrack "audio" 111 RTPCodecTypeAudio "pion" 5000 (Some opus) ""
          (Some pz) None [] 0 None.

Definition paused_track : Track :=
  mkTrack "audio" 111 RTPCodecTypeAudio "pion" 5000 (Some opus) ""
          (Some pz) None [] 2 None.

Definition packet (seq : N) (payload : list byte) : rtp.Packet :=
  rtp.mkPacket (rtp.mkHeader false 111 seq 0 5000) payload.

(** The network holds one packet for the remote track: an RTP packet, or
    bytes that are none. *)
Definition delivers (pkt : list byte) : MockWorld := mkWorld [pkt] [] 0 0.


(** A receiver that breaks the contract of a reader: it reports one byte
    more than the buffer holds. *)
Definition lying_readRTP (r : RTPReceiver) (b : list byte) (t : Track)
           (w : MockWorld)
  : (list byte * Z * option error) * MockWorld :=
  (([], Z.of_nat (length b) + 1)%Z, None, w).

Definition lying : Collaborators := {|
  World := MockWorld;
  receiveMTU := 1460;
  readRTP := lying_readRTP;
  SendRTP := mock_SendRTP;
  Unmarshal := mock_Unmarshal;
  Packetize := mock_Packetize;
  NewRandomSequencer := mock_NewRandomSequencer
|}.

(** A track with a receiver that has a packetizer all the same. *)
Definition remote_with_packetizer : Track :=
  mkTrack "video" 0 RTPCodecTypeVideo "remote" 6000 None ""
          (Some pz) (Some 9) [] 0 None.

(** The state of a run on the receiver that breaks the contract. *)
Definition lying_state (t : Track) (w : MockWorld) (cs : list Call)
  : @St lying := @mkSt lying t w cs.

End Mock.

(** * Properties *)

Section Properties.

Context {C : Collaborators}.

(** ** Slices *)

Lemma make_length (n : nat) : length (make n) = n.
Proof. unfold make. apply repeat_length. Qed.

Lemma copy_fst_length (dst src : list byte) :
  length (fst (copy dst src)) = length dst.
Proof.
  unfold copy; simpl. rewrite length_app, length_firstn, length_skipn. lia.
Qed.

(** Copying a slice of [n] bytes over a new slice of [n] bytes gives the
    bytes themselves. *)
Lemma copy_make_exact (n : nat) (b : list byte) :
  (n <= length b)%nat ->
  copy (make n) (firstn n b) = (firstn n b, Z.of_nat n).
Proof.
  intros Hn. unfold copy.
  rewrite make_length, length_firstn.
  replace (Nat.min n (Nat.min n (length b))) with n by lia.
  rewrite firstn_firstn, Nat.min_id.
  rewrite skipn_all2 by (rewrite make_length; lia).
  now rewrite app_nil_r.
Qed.

(** ** Read, case by case *)

Lemma Read_wrong_mode (s : St) (b : list byte) :
  totalSenderCount (track s) <> 0%Z \/ receiver (track s) = None ->
  Read b s = Returns (b, 0%Z, Some errTrackLocalTrackRead) s.
Proof.
  intros H. unfold Read, bind, load.
  destruct (totalSenderCount (track s) =? 0)%Z eqn:Ht; simpl.
  - destruct H as [H | H].
    + apply Z.eqb_eq in Ht. contradiction.
    + rewrite H. reflexivity.
  - reflexivity.
Qed.

Lemma Read_peeked (s : St) (b data : list byte) (r : RTPReceiver) :
  receiver (track s) = Some r ->
  totalSenderCount (track s) = 0%Z ->
  peeked (track s) = Some data ->
  Read b s = Returns (fst (copy b data), snd (copy b data), None)
                     (claimed_state s).
Proof.
  intros Hr Ht Hp. unfold Read, bind, load, store, ret.
  rewrite Hr, Ht. simpl. rewrite Hp. simpl. rewrite Hp. reflexivity.
Qed.

Lemma Read_live (s : St) (b : list byte) (r : RTPReceiver) :
  receiver (track s) = Some r ->
  totalSenderCount (track s) = 0%Z ->
  peeked (track s) = None ->
  Read b s =
  let '(w, n, err, w') := readRTP r b (track s) (world s) in
  Returns (overlay b w, n, err)
          (mkSt (track s) w' (calls s ++ [CallReadRTP r (length b)])).
Proof.
  intros Hr Ht Hp. unfold Read, bind, load, store, ret, call.
  rewrite Hr, Ht. simpl. rewrite Hp. simpl.
  destruct (readRTP r b (track s) (world s)) as [[[w n] err] w'].
  reflexivity.
Qed.

(** Read returns, and it writes to no field of the track but peeked. *)
Lemma Read_frame (s : St) (b : list byte) :
  exists b' n err s',
    Read b s = Returns (b', n, err) s' /\
    track s' = set_peeked (peeked (track s')) (track s) /\
    (err = None ->
     exists r, receiver (track s) = Some r /\ totalSenderCount (track s) = 0%Z).
Proof.
  destruct (receiver (track s)) as [r|] eqn:Hr.
  2:{ exists b, 0%Z, (Some errTrackLocalTrackRead), s.
      rewrite Read_wrong_mode by (now right).
      repeat split; [now destruct s as [[] ? ?] | discriminate]. }
  destruct (Z.eq_dec (totalSenderCount (track s)) 0) as [Ht|Ht].
  2:{ exists b, 0%Z, (Some errTrackLocalTrackRead), s.
      rewrite Read_wrong_mode by (now left).
      repeat split; [now destruct s as [[] ? ?] | discriminate]. }
  destruct (peeked (track s)) as [d|] eqn:Hp.
  - rewrite (Read_peeked _ _ Hr Ht Hp). do 4 eexists. split; [reflexivity|].
    split; [reflexivity | intros _; now exists r].
  - rewrite (Read_live _ _ Hr Ht Hp).
    destruct (readRTP r b (track s) (world s)) as [[[w n] err] w'].
    do 4 eexists. split; [reflexivity|]. simpl.
    split; [now destruct s as [[] ? ?] | intros _; now exists r].
Qed.

(** ** peek *)

(** A peek that returns without an error returns the bytes and the count
    of its Read, and leaves the first n bytes in the peeked slot. *)
Lemma peek_ok_inv (s s1 : St) (b b1 : list byte) (n : Z) :
  peek b s = Returns (b1, n, None) s1 ->
  exists s0,
    Read b s = Returns (b1, n, None) s0 /\
    (0 <= n <= Z.of_nat (length b1))%Z /\
    s1 = mkSt (set_peeked (Some (firstn (Z.to_nat n) b1)) (track s0))
              (world s0) (calls s0).
Proof.
  unfold peek, bind. intros H.
  destruct (Read b s) as [[[b0 n0] [e|]] s0|] eqn:HR; try discriminate.
  unfold make_int, slice_to, bind, ret, panic in H.
  destruct (n0 <? 0)%Z eqn:Hneg; try discriminate.
  destruct ((0 <=? n0)%Z && (n0 <=? Z.of_nat (length b0))%Z) eqn:Hin;
    try discriminate.
  apply andb_prop in Hin. destruct Hin as [H0 H1].
  apply Z.leb_le in H0, H1.
  rewrite copy_make_exact in H by lia.
  unfold store in H. injection H as -> <- <-.
  rewrite Z2Nat.id by lia.
  exists s0. repeat split; lia.
Qed.

(** peek passes on the error of its Read and stores nothing then. *)
Lemma peek_err_inv (s s1 : St) (b b1 : list byte) (n : Z) (e : error) :
  peek b s = Returns (b1, n, Some e) s1 ->
  Read b s = Returns (b1, n, Some e) s1.
Proof.
  unfold peek, bind. intros H.
  destruct (Read b s) as [[[b0 n0] [e0|]] s0|] eqn:HR; try discriminate.
  - exact H.
  - unfold make_int, slice_to, bind, ret, panic in H.
    destruct (n0 <? 0)%Z; try discriminate.
    destruct ((0 <=? n0)%Z && (n0 <=? Z.of_nat (length b0))%Z);
      discriminate.
Qed.

(** Read and peek leave the mode and the payload type of the track as
    they are. *)
Lemma Read_keeps (s s' : St) (b b' : list byte) (n : Z) (err : option error) :
  Read b s = Returns (b', n, err) s' ->
  payloadType (track s') = payloadType (track s) /\
  receiver (track s') = receiver (track s) /\
  totalSenderCount (track s') = totalSenderCount (track s).
Proof.
  intros H. destruct (Read_frame s b) as (b0 & n0 & e0 & s0 & HR & Hf & _).
  rewrite HR in H. injection H as <- <- <- <-.
  rewrite Hf. simpl. auto.
Qed.

Lemma peek_keeps (s s' : St) (b b' : list byte) (n : Z) (err : option error) :
  peek b s = Returns (b', n, err) s' ->
  payloadType (track s') = payloadType (track s) /\
  receiver (track s') = receiver (track s) /\
  totalSenderCount (track s') = totalSenderCount (track s).
Proof.
  intros H. destruct err as [e|].
  - apply peek_err_inv in H. exact (Read_keeps _ _ H).
  - apply peek_ok_inv in H. destruct H as (s0 & HR & _ & ->).
    simpl. exact (Read_keeps _ _ HR).
Qed.

(** A peek without an error was made in remote mode. *)
Lemma peek_ok_remote (s s1 : St) (b b1 : list byte) (n : Z) :
  peek b s = Returns (b1, n, None) s1 ->
  exists r, receiver (track s1) = Some r /\
            totalSenderCount (track s1) = 0%Z.
Proof.
  intros H. destruct (peek_keeps _ _ H) as (_ & Hr & Ht).
  apply peek_ok_inv in H. destruct H as (s0 & HR & _ & _).
  destruct (Read_frame s b) as (b0 & n0 & e0 & s0' & HR' & _ & Hmode).
  rewrite HR in HR'. injection HR' as <- <- <- <-.
  destruct (Hmode eq_refl) as (r & Hr' & Ht').
  exists r. now rewrite Hr, Ht.
Qed.

(** b[:n] after a peek without an error does not panic. *)
Lemma slice_to_in_range (b : list byte) (n : Z) (s : St) :
  (0 <= n <= Z.of_nat (length b))%Z ->
  slice_to b n s = Returns (firstn (Z.to_nat n) b) s.
Proof.
  intros [H0 H1]. unfold slice_to.
  apply Z.leb_le in H0, H1. now rewrite H0, H1.
Qed.

(** ** The inbound path *)

(** C3: on a track with totalSenderCount != 0 or a nil receiver, Read
    returns at once n = 0 and errTrackLocalTrackRead, and so does ReadRTP;
    the buffer, the track, the world and the log of calls are as before:
    the receiver was not called. *)
Theorem Read_on_local_track (s : St) (b : list byte) :
  totalSenderCount (track s) <> 0%Z \/ receiver (track s) = None ->
  Read b s = Returns (b, 0%Z, Some errTrackLocalTrackRead) s /\
  ReadRTP s = Returns (None, Some errTrackLocalTrackRead) s.
Proof.
  intros H. split.
  - now apply Read_wrong_mode.
  - unfold ReadRTP, bind. now rewrite Read_wrong_mode.
Qed.

(** C9: in remote mode, a Read into a buffer of k bytes, while a packet
    of m bytes is in the peeked slot, returns n = min(k, m) and a nil
    error, with the first n bytes of the packet in the buffer; the slot is
    empty afterwards and the receiver was not called, so that the other
    m - n bytes are gone: the next Read is a read from the receiver. *)
Theorem Read_claims_peeked (s : St) (b data : list byte) (r : RTPReceiver) :
  receiver (track s) = Some r ->
  totalSenderCount (track s) = 0%Z ->
  peeked (track s) = Some data ->
  let n := Nat.min (length b) (length data) in
  let s' := mkSt (set_peeked None (track s)) (world s) (calls s) in
  Read b s = Returns (firstn n data ++ skipn n b, Z.of_nat n, None) s' /\
  peeked (track s') = None /\
  forall b2,
    Read b2 s' =
    let '(w, n2, err, w') := readRTP r b2 (track s') (world s) in
    Returns (overlay b2 w, n2, err)
            (mkSt (track s') w' (calls s ++ [CallReadRTP r (length b2)])).
Proof.
  intros Hr Ht Hp n s'. split; [|split].
  - now rewrite (Read_peeked _ _ Hr Ht Hp).
  - reflexivity.
  - intros b2. now rewrite (@Read_live s' b2 r).
Qed.

(** C8: when peek returns n bytes without an error, the peeked slot holds
    exactly these n bytes, and the next Read, into a buffer of at least n
    bytes, returns the same n bytes and a nil error; it empties the slot
    and makes no call to the receiver.  (A peek without an error was made
    in remote mode.) *)
Theorem peek_then_Read (s s1 : St) (b b1 : list byte) (n : Z) :
  peek b s = Returns (b1, n, None) s1 ->
  (0 <= n <= Z.of_nat (length b1))%Z /\
  peeked (track s1) = Some (firstn (Z.to_nat n) b1) /\
  forall b2, (n <= Z.of_nat (length b2))%Z ->
    Read b2 s1 =
    Returns (firstn (Z.to_nat n) b1 ++ skipn (Z.to_nat n) b2, n, None)
            (mkSt (set_peeked None (track s1)) (world s1) (calls s1)).
Proof.
  intros H. destruct (peek_ok_remote _ _ H) as (r & Hr & Ht).
  destruct (peek_ok_inv _ _ H) as (s0 & _ & Hn & Hs1).
  assert (Hp : peeked (track s1) = Some (firstn (Z.to_nat n) b1))
    by (rewrite Hs1; reflexivity).
  split; [exact Hn|]. split; [exact Hp|].
  intros b2 Hb2. rewrite (Read_peeked _ _ Hr Ht Hp).
  unfold copy, claimed_state; simpl.
  rewrite length_firstn.
  replace (Nat.min (length b2) (Nat.min (Z.to_nat n) (length b1)))
    with (Z.to_nat n) by lia.
  rewrite firstn_firstn, Nat.min_id, Z2Nat.id by lia.
  reflexivity.
Qed.

(** C7: when the peek and the deserialization succeed,
    determinePayloadType returns nil and the payloadType of the track is
    the payload type of the header of the packet: the track is the track
    that peek left with this one field written, every other field, the
    world and the log of calls being those that peek left.  When the peek
    fails, or the deserialization does, it returns that error and
    payloadType is what it was before the call. *)
Theorem determinePayloadType_spec (s : St) :
  (forall b1 n s1 r,
      peek (make receiveMTU) s = Returns (b1, n, None) s1 ->
      Unmarshal (firstn (Z.to_nat n) b1) = inr r ->
      exists s',
        determinePayloadType s = Returns None s' /\
        payloadType (track s') = rtp.PayloadType (rtp.PacketHeader r) /\
        track s' =
          mkTrack (id (track s1)) (rtp.PayloadType (rtp.PacketHeader r))
                  (kind (track s1)) (label (track s1)) (ssrc (track s1))
                  (codec (track s1)) (rid (track s1))
                  (packetizer (track s1)) (receiver (track s1))
                  (activeSenders (track s1)) (totalSenderCount (track s1))
                  (peeked (track s1)) /\
        world s' = world s1 /\
        calls s' = calls s1) /\
  (forall b1 n s1 e,
      peek (make receiveMTU) s = Returns (b1, n, Some e) s1 ->
      determinePayloadType s = Returns (Some e) s1 /\
      payloadType (track s1) = payloadType (track s)) /\
  (forall b1 n s1 e,
      peek (make receiveMTU) s = Returns (b1, n, None) s1 ->
      Unmarshal (firstn (Z.to_nat n) b1) = inl e ->
      determinePayloadType s = Returns (Some e) s1 /\
      payloadType (track s1) = payloadType (track s)).
Proof.
  split; [|split].
  - intros b1 n s1 r Hpk Hu.
    destruct (peek_ok_inv _ _ Hpk) as (_ & _ & Hn & _).
    unfold determinePayloadType, bind. rewrite Hpk.
    rewrite slice_to_in_range by exact Hn. rewrite Hu.
    eexists. split; [reflexivity|]. simpl. repeat split.
  - intros b1 n s1 e Hpk. split.
    + unfold determinePayloadType, bind. now rewrite Hpk.
    + now destruct (peek_keeps _ _ Hpk).
  - intros b1 n s1 e Hpk Hu. split.
    + destruct (peek_ok_inv _ _ Hpk) as (_ & _ & Hn & _).
      unfold determinePayloadType, bind. rewrite Hpk.
      rewrite slice_to_in_range by exact Hn. now rewrite Hu.
    + now destruct (peek_keeps _ _ Hpk).
Qed.

(** C10: when the peek of determinePayloadType succeeds and the
    deserialization of the peeked bytes fails, the call returns the
    deserialization error in the state the peek left: payloadType is
    untouched, but the peeked slot holds the bytes, so that the next Read
    returns these bytes (as many as fit its buffer) without a call to the
    receiver; and the track is not what it was if the slot was empty
    before. *)
Theorem determinePayloadType_leaves_peeked
        (s s1 : St) (b1 : list byte) (n : Z) (e : error) :
  peek (make receiveMTU) s = Returns (b1, n, None) s1 ->
  Unmarshal (firstn (Z.to_nat n) b1) = inl e ->
  let bytes := firstn (Z.to_nat n) b1 in
  determinePayloadType s = Returns (Some e) s1 /\
  payloadType (track s1) = payloadType (track s) /\
  peeked (track s1) = Some bytes /\
  (forall b2,
      let k := Nat.min (length b2) (length bytes) in
      Read b2 s1 =
      Returns (firstn k bytes ++ skipn k b2, Z.of_nat k, None)
              (mkSt (set_peeked None (track s1)) (world s1) (calls s1))) /\
  (peeked (track s) = None -> track s1 <> track s).
Proof.
  intros Hpk Hu bytes.
  destruct (peek_ok_remote _ _ Hpk) as (r & Hr & Ht).
  destruct (peek_ok_inv _ _ Hpk) as (s0 & _ & Hn & Hs1).
  assert (Hp : peeked (track s1) = Some bytes) by (rewrite Hs1; reflexivity).
  split; [|split; [|split; [|split]]].
  - unfold determinePayloadType, bind. rewrite Hpk.
    rewrite slice_to_in_range by exact Hn. now rewrite Hu.
  - now destruct (peek_keeps _ _ Hpk).
  - exact Hp.
  - intros b2 k. now rewrite (Read_peeked _ _ Hr Ht Hp).
  - intros Hnone Heq. rewrite Heq in Hp. congruence.
Qed.

(** ** WriteRTP, case by case *)




(** The loop calls every sender of the list, in order, once, and appends
    the errors to writeErrs. *)
Lemma WriteRTP_range_spec (senders : list RTPSender) (p : rtp.Packet) :
  forall (writeErrs : list error) (s : St),
    WriteRTP_range senders p writeErrs s =
    Returns (writeErrs ++ failures (fst (send_each senders p (world s))))
            (mkSt (track s) (snd (send_each senders p (world s)))
                  (calls s ++ send_calls senders p)).
Proof.
  induction senders as [|sd senders IH]; intros writeErrs s; simpl.
  - unfold ret. rewrite !app_nil_r. now destruct s.
  - unfold bind, call.
    destruct (SendRTP sd _ _ (world s)) as [[k err] w1].
    destruct err as [e|]; rewrite IH; simpl;
      destruct (send_each senders p w1) as [errs w2]; simpl;
      rewrite <- !app_assoc; reflexivity.
Qed.

Lemma WriteRTP_remote (s : St) (p : rtp.Packet) (r : RTPReceiver) :
  receiver (track s) = Some r ->
  WriteRTP p s = Returns (Some errTrackLocalTrackWrite) s.
Proof.
  intros Hr. unfold WriteRTP, bind, load. now rewrite Hr.
Qed.

Lemma WriteRTP_no_sender (s : St) (p : rtp.Packet) :
  receiver (track s) = None ->
  totalSenderCount (track s) = 0%Z ->
  WriteRTP p s = Returns (Some ErrClosedPipe) s.
Proof.
  intros Hr Ht. unfold WriteRTP, bind, load. rewrite Hr. simpl. now rewrite Ht.
Qed.

Lemma WriteRTP_local (s : St) (p : rtp.Packet) :
  receiver (track s) = None ->
  totalSenderCount (track s) <> 0%Z ->
  WriteRTP p s =
  Returns (FlattenErrs
             (failures (fst (send_each (activeSenders (track s)) p (world s)))))
          (mkSt (track s)
                (snd (send_each (activeSenders (track s)) p (world s)))
                (calls s ++ send_calls (activeSenders (track s)) p)).
Proof.
  intros Hr Ht. unfold WriteRTP, bind, load. rewrite Hr. simpl.
  apply Z.eqb_neq in Ht. rewrite Ht.
  now rewrite WriteRTP_range_spec.
Qed.

(** WriteRTP returns; it leaves the track as it is, and its calls are
    [sends]. *)
Lemma WriteRTP_returns (s : St) (p : rtp.Packet) :
  exists err s',
    WriteRTP p s = Returns err s' /\
    track s' = track s /\
    calls s' = calls s ++ sends (track s) p.
Proof.
  unfold sends.
  destruct (receiver (track s)) as [r|] eqn:Hr.
  - do 2 eexists. split; [exact (WriteRTP_remote _ _ Hr)|].
    simpl. now rewrite app_nil_r.
  - destruct (Z.eq_dec (totalSenderCount (track s)) 0) as [Ht|Ht].
    + do 2 eexists. split; [exact (WriteRTP_no_sender _ _ Hr Ht)|].
      rewrite Ht. simpl. now rewrite app_nil_r.
    + do 2 eexists. split; [exact (WriteRTP_local _ _ Hr Ht)|].
      apply Z.eqb_neq in Ht. rewrite Ht. simpl. auto.
Qed.

(** ** The outbound path *)


(** C2: WriteRTP on a track with a receiver returns
    errTrackLocalTrackWrite; without a receiver and with
    totalSenderCount = 0 it returns io.ErrClosedPipe; without a receiver,
    with totalSenderCount > 0 and no active sender it returns nil.  In the
    three cases the state is the one before the call: no sender was
    called and the track is as it was. *)
Theorem WriteRTP_gates (s : St) (p : rtp.Packet) :
  (forall r, receiver (track s) = Some r ->
             WriteRTP p s = Returns (Some errTrackLocalTrackWrite) s) /\
  (receiver (track s) = None ->
   totalSenderCount (track s) = 0%Z ->
   WriteRTP p s = Returns (Some ErrClosedPipe) s) /\
  (receiver (track s) = None ->
   (0 < totalSenderCount (track s))%Z ->
   activeSenders (track s) = [] ->
   WriteRTP p s = Returns None s).
Proof.
  split; [|split].
  - intros r Hr. exact (WriteRTP_remote _ _ Hr).
  - intros Hr Ht. exact (WriteRTP_no_sender _ _ Hr Ht).
  - intros Hr Ht Hs. rewrite WriteRTP_local by (auto; lia).
    rewrite Hs. simpl. rewrite app_nil_r. now destruct s.
Qed.

(** The loop of WriteSample, on packets that are all written. *)
Lemma WriteSample_range_ok (ps : list rtp.Packet) (s s' : St) :
  writes_ok ps s s' ->
  WriteSample_range ps s = Returns None s'.
Proof.
  induction 1 as [s | p ps s s1 s2 Hw _ IH]; simpl.
  - reflexivity.
  - unfold bind. now rewrite Hw.
Qed.

(** The loop of WriteSample, on packets of which one is not written:
    the loop ends there. *)
Lemma WriteSample_range_stops (ps : list rtp.Packet) (s s' : St) :
  writes_ok ps s s' ->
  forall p after e s'',
    WriteRTP p s' = Returns (Some e) s'' ->
    WriteSample_range (ps ++ p :: after) s = Returns (Some e) s''.
Proof.
  induction 1 as [s | p0 ps s s1 s2 Hw _ IH]; intros p after e s'' Hf; simpl.
  - unfold bind. now rewrite Hf.
  - unfold bind. rewrite Hw. now apply IH.
Qed.

(** The loop of WriteSample ends in one of these two ways. *)
Lemma WriteSample_range_cases (ps : list rtp.Packet) :
  forall s,
    (exists s', writes_ok ps s s') \/
    (exists before p after s1 e s2,
        ps = before ++ p :: after /\
        writes_ok before s s1 /\
        WriteRTP p s1 = Returns (Some e) s2).
Proof.
  induction ps as [|p ps IH]; intros s.
  - left. exists s. constructor.
  - destruct (WriteRTP_returns s p) as (err & s1 & Hw & _).
    destruct err as [e|].
    + right. exists [], p, ps, s, e, s1. repeat split; [constructor | exact Hw].
    + destruct (IH s1) as [(s' & Hok) | (before & q & after & s2 & e & s3 & -> & Hok & Hf)].
      * left. exists s'. econstructor; eassumption.
      * right. exists (p :: before), q, after, s2, e, s3.
        repeat split; [econstructor; eassumption | exact Hf].
Qed.

(** The calls of packets that are all written. *)
Lemma writes_ok_calls (ps : list rtp.Packet) (s s' : St) :
  writes_ok ps s s' ->
  track s' = track s /\
  calls s' = calls s ++ flat_map (sends (track s)) ps.
Proof.
  induction 1 as [s | p ps s s1 s2 Hw _ [IHt IHc]]; simpl.
  - now rewrite app_nil_r.
  - destruct (WriteRTP_returns s p) as (err & s0 & Hw' & Ht & Hc).
    rewrite Hw in Hw'. injection Hw' as <- <-.
    rewrite IHt, IHc, Ht, Hc, app_assoc. auto.
Qed.

(** C5: WriteSample calls WriteRTP on the packets of the packetizer, in
    their order.  If every call succeeds it returns nil.  If the call on
    a packet fails, after the calls on the packets before it succeeded,
    WriteSample returns the error of that call in the state that call
    left: the packets after it are not written, and the senders were
    called for the packets up to it only.  One of the two happens. *)
Theorem WriteSample_fail_fast
        (s : St) (smp : media.Sample) (pz : rtp.Packetizer)
        (packets : list rtp.Packet) (w1 : World) :
  packetizer (track s) = Some pz ->
  Packetize pz (media.Data smp) (media.Samples smp) (world s) = (packets, w1) ->
  let s1 := mkSt (track s) w1
                 (calls s ++
                  [CallPacketize pz (media.Data smp) (media.Samples smp)]) in
  (forall s2, writes_ok packets s1 s2 ->
              WriteSample smp s = Returns None s2) /\
  (forall before p after s2 e s3,
      packets = before ++ p :: after ->
      writes_ok before s1 s2 ->
      WriteRTP p s2 = Returns (Some e) s3 ->
      WriteSample smp s = Returns (Some e) s3 /\
      calls s3 = calls s1 ++ flat_map (sends (track s)) (before ++ [p])) /\
  ((exists s2, writes_ok packets s1 s2) \/
   (exists before p after s2 e s3,
       packets = before ++ p :: after /\
       writes_ok before s1 s2 /\
       WriteRTP p s2 = Returns (Some e) s3)).
Proof.
  intros Hpz Hpk s1.
  assert (Hrun : WriteSample smp s = WriteSample_range packets s1).
  { unfold WriteSample, bind, load, call. rewrite Hpz, Hpk. reflexivity. }
  split; [|split].
  - intros s2 Hok. rewrite Hrun. now apply WriteSample_range_ok.
  - intros before p after s2 e s3 -> Hok Hf. split.
    + rewrite Hrun. eapply WriteSample_range_stops; eassumption.
    + destruct (writes_ok_calls Hok) as [Ht Hc].
      destruct (WriteRTP_returns s2 p) as (err & s0 & Hw & _ & Hc').
      rewrite Hf in Hw. injection Hw as <- <-.
      rewrite Hc', Hc, Ht, flat_map_app. simpl.
      now rewrite app_nil_r, app_assoc.
  - apply WriteSample_range_cases.
Qed.

(** C6: Write(b) deserializes b and passes the packet to WriteRTP.  If
    the deserialization fails it returns 0 and that error, in the state
    before the call: WriteRTP was not called.  If WriteRTP fails it
    returns 0 and the error of WriteRTP.  If WriteRTP succeeds it returns
    len(b) and nil, whatever the senders answered.  Write returns in every
    state. *)
Theorem Write_spec (s : St) (b : list byte) :
  (forall e, Unmarshal b = inl e ->
             Write b s = Returns (0%Z, Some e) s) /\
  (forall packet e s',
      Unmarshal b = inr packet ->
      WriteRTP packet s = Returns (Some e) s' ->
      Write b s = Returns (0%Z, Some e) s') /\
  (forall packet s',
      Unmarshal b = inr packet ->
      WriteRTP packet s = Returns None s' ->
      Write b s = Returns (Z.of_nat (length b), None) s') /\
  (exists n err s', Write b s = Returns (n, err) s').
Proof.
  unfold Write, bind. repeat split.
  - intros e ->. reflexivity.
  - intros packet e s' -> ->. reflexivity.
  - intros packet s' -> ->. reflexivity.
  - destruct (Unmarshal b) as [e|packet].
    + now do 3 eexists.
    + destruct (WriteRTP_returns s packet) as (err & s' & -> & _).
      destruct err; now do 3 eexists.
Qed.

(** ** Construction *)

(** C4: NewTrack with ssrc = 0 returns errTrackSSRCNewTrackZero and no
    track.  With any other ssrc, and a codec, it returns a track and a nil
    error; the ssrc, the payload type, the codec, the id and the label of
    the track are the arguments, its kind is the type of the codec, its
    receiver is nil, and it has no sender. *)
Theorem NewTrack_spec (pt sc : N) (i l : string) :
  (forall cd w,
      sc = 0%N ->
      NewTrack pt sc i l cd w =
      Returns (None, Some errTrackSSRCNewTrackZero) w) /\
  (forall c w,
      sc <> 0%N ->
      exists t w',
        NewTrack pt sc i l (Some c) w = Returns (Some t, None) w' /\
        ssrc t = sc /\ payloadType t = pt /\
        kind t = Type_ c /\ codec t = Some c /\
        id t = i /\ label t = l /\
        receiver t = None /\
        activeSenders t = [] /\ totalSenderCount t = 0%Z).
Proof.
  split.
  - intros cd w ->. reflexivity.
  - intros c w Hsc. unfold NewTrack, bind, ret.
    apply N.eqb_neq in Hsc. rewrite Hsc.
    destruct (NewRandomSequencer w) as [sq w'].
    do 2 eexists. split; [reflexivity|]. simpl. repeat split.
Qed.

(** What NewTrack does of a nil codec: with ssrc = 0 the test on ssrc
    comes first; otherwise codec.Payloader is a nil dereference. *)
Lemma NewTrack_nil_codec (pt sc : N) (i l : string) (w : World) :
  sc <> 0%N -> NewTrack pt sc i l None w = Panics.
Proof.
  intros Hsc. unfold NewTrack. apply N.eqb_neq in Hsc. now rewrite Hsc.
Qed.

End Properties.

(** * More of the track *)

Section MoreProperties.

Context {C : Collaborators}.

(** ** Records and slices *)

Lemma set_peeked_same (t : Track) : set_peeked (peeked t) t = t.
Proof. now destruct t. Qed.

Lemma set_payloadType_same (t : Track) : set_payloadType (payloadType t) t = t.
Proof. now destruct t. Qed.

Lemma St_eta (s : St) : mkSt (track s) (world s) (calls s) = s.
Proof. now destruct s. Qed.

Lemma overlay_length (b w : list byte) : length (overlay b w) = length b.
Proof.
  unfold overlay. rewrite length_app, length_firstn, length_skipn. lia.
Qed.

(** The first bytes of a buffer into which a packet that fits was copied
    are the packet. *)
Lemma firstn_copied (data b : list byte) :
  (length data <= length b)%nat ->
  firstn (length data) (fst (copy b data)) = data.
Proof.
  intros H. unfold copy. simpl.
  replace (Nat.min (length b) (length data)) with (length data) by lia.
  rewrite firstn_all, firstn_app, firstn_all, Nat.sub_diag. simpl.
  apply app_nil_r.
Qed.

(** ** Read, in every state *)

Lemma Read_length (s s' : St) (b b' : list byte) (n : Z) (err : option error) :
  Read b s = Returns (b', n, err) s' -> length b' = length b.
Proof.
  intros H.
  destruct (receiver (track s)) as [r|] eqn:Hr.
  2:{ rewrite Read_wrong_mode in H by (now right). now injection H as <- _ _ _. }
  destruct (Z.eq_dec (totalSenderCount (track s)) 0) as [Ht|Ht].
  2:{ rewrite Read_wrong_mode in H by (now left). now injection H as <- _ _ _. }
  destruct (peeked (track s)) as [d|] eqn:Hp.
  - rewrite (Read_peeked _ _ Hr Ht Hp) in H. injection H as <- _ _ _.
    apply copy_fst_length.
  - rewrite (Read_live _ _ Hr Ht Hp) in H.
    destruct (readRTP r b (track s) (world s)) as [[[w n0] e0] w'].
    injection H as <- _ _ _. apply overlay_length.
Qed.

(** X1: Read returns in every state, with a buffer of the length it was
    handed.  It writes to no field of the track but peeked, and when the
    track is in remote mode the peeked slot is empty afterwards.  It makes
    no call, or the single call readRTP(b, t) to the receiver of the
    track. *)
Theorem Read_effects (s : St) (b : list byte) :
  exists b' n err s',
    Read b s = Returns (b', n, err) s' /\
    length b' = length b /\
    track s' = set_peeked (peeked (track s')) (track s) /\
    (forall r, receiver (track s) = Some r ->
               totalSenderCount (track s) = 0%Z ->
               peeked (track s') = None) /\
    ((world s' = world s /\ calls s' = calls s) \/
     (exists r, receiver (track s) = Some r /\
                peeked (track s) = None /\
                calls s' = calls s ++ [CallReadRTP r (length b)])).
Proof.
  destruct (receiver (track s)) as [r|] eqn:Hr.
  2:{ exists b, 0%Z, (Some errTrackLocalTrackRead), s.
      rewrite Read_wrong_mode by (now right).
      split; [reflexivity|]. split; [reflexivity|].
      split; [now rewrite set_peeked_same|].
      split; [discriminate | now left]. }
  destruct (Z.eq_dec (totalSenderCount (track s)) 0) as [Ht|Ht].
  2:{ exists b, 0%Z, (Some errTrackLocalTrackRead), s.
      rewrite Read_wrong_mode by (now left).
      split; [reflexivity|]. split; [reflexivity|].
      split; [now rewrite set_peeked_same|].
      split; [intros; contradiction | now left]. }
  destruct (peeked (track s)) as [d|] eqn:Hp.
  - rewrite (Read_peeked _ _ Hr Ht Hp). do 4 eexists.
    split; [reflexivity|]. split; [apply copy_fst_length|].
    split; [reflexivity|]. split; [reflexivity|]. left. split; reflexivity.
  - rewrite (Read_live _ _ Hr Ht Hp).
    destruct (readRTP r b (track s) (world s)) as [[[w n] err] w'].
    do 4 eexists. split; [reflexivity|]. split; [apply overlay_length|].
    simpl. split; [now rewrite set_peeked_same|].
    split; [intros; exact Hp|]. right. exists r. auto.
Qed.

(** ** peek *)

Lemma peek_peeked (s : St) (b data : list byte) (r : RTPReceiver) :
  receiver (track s) = Some r ->
  totalSenderCount (track s) = 0%Z ->
  peeked (track s) = Some data ->
  peek b s =
  Returns (firstn (Nat.min (length b) (length data)) data ++
           skipn (Nat.min (length b) (length data)) b,
           Z.of_nat (Nat.min (length b) (length data)), None)
          (mkSt (set_peeked
                   (Some (firstn (Nat.min (length b) (length data)) data))
                   (track s))
                (world s) (calls s)).
Proof.
  intros Hr Ht Hp. unfold peek, bind. rewrite (Read_peeked _ _ Hr Ht Hp).
  unfold copy at 1 2. simpl fst. simpl snd. cbv iota beta.
  set (k := Nat.min (length b) (length data)).
  unfold make_int, bind.
  destruct (Z.of_nat k <? 0)%Z eqn:Hneg; [apply Z.ltb_lt in Hneg; lia|].
  unfold ret at 1.
  assert (Hlen : length (firstn k data ++ skipn k b) = length b).
  { rewrite length_app, length_firstn, length_skipn. lia. }
  rewrite slice_to_in_range by (rewrite Hlen; lia).
  rewrite Nat2Z.id.
  rewrite copy_make_exact by (rewrite Hlen; lia).
  assert (Hf : firstn k (firstn k data ++ skipn k b) = firstn k data).
  { rewrite firstn_app, length_firstn.
    replace (k - Nat.min k (length data))%nat with 0%nat by lia.
    rewrite firstn_firstn, Nat.min_id. simpl. apply app_nil_r. }
  rewrite Hf. reflexivity.
Qed.

(** X2: in remote mode, a peek while a packet is in the peeked slot is
    served from the slot: it returns the first min(len(b), len(packet))
    bytes of the packet and a nil error, makes no call to the receiver,
    and leaves these bytes in the slot, so that a buffer shorter than the
    packet shortens the packet in the slot too. *)
Theorem peek_serves_peeked (s : St) (b data : list byte) (r : RTPReceiver) :
  receiver (track s) = Some r ->
  totalSenderCount (track s) = 0%Z ->
  peeked (track s) = Some data ->
  let k := Nat.min (length b) (length data) in
  peek b s =
  Returns (firstn k data ++ skipn k b, Z.of_nat k, None)
          (mkSt (set_peeked (Some (firstn k data)) (track s))
                (world s) (calls s)).
Proof.
  intros Hr Ht Hp k. exact (peek_peeked _ b Hr Ht Hp).
Qed.

(** A peek after a peek without an error, into a buffer that holds the
    bytes, changes nothing. *)
Lemma peek_again (s s1 : St) (b b1 b2 : list byte) (n : Z) :
  peek b s = Returns (b1, n, None) s1 ->
  (n <= Z.of_nat (length b2))%Z ->
  peek b2 s1 =
  Returns (firstn (Z.to_nat n) b1 ++ skipn (Z.to_nat n) b2, n, None) s1.
Proof.
  intros H Hb2. destruct (peek_ok_remote _ _ H) as (r & Hr & Ht).
  destruct (peek_ok_inv _ _ H) as (s0 & _ & Hn & Hs1).
  assert (Hp : peeked (track s1) = Some (firstn (Z.to_nat n) b1))
    by (rewrite Hs1; reflexivity).
  rewrite (peek_peeked _ b2 Hr Ht Hp).
  rewrite length_firstn.
  replace (Nat.min (length b2) (Nat.min (Z.to_nat n) (length b1)))
    with (Z.to_nat n) by lia.
  rewrite firstn_firstn, Nat.min_id, Z2Nat.id by lia.
  rewrite <- Hp, set_peeked_same, St_eta. reflexivity.
Qed.

(** X3: peek is idempotent: after a peek that returned n bytes without an
    error, a second peek into a buffer of at least n bytes returns the
    same n bytes and a nil error, and leaves the state as it is: the
    receiver is not called and the bytes stay in the slot. *)
Theorem peek_idempotent (s s1 : St) (b b1 b2 : list byte) (n : Z) :
  peek b s = Returns (b1, n, None) s1 ->
  (n <= Z.of_nat (length b2))%Z ->
  peek b2 s1 =
  Returns (firstn (Z.to_nat n) b1 ++ skipn (Z.to_nat n) b2, n, None) s1.
Proof.
  intros H Hb2. eapply peek_again; eassumption.
Qed.

(** ** ReadRTP and determinePayloadType on a peeked packet *)

(** The bytes of a packet that fits, copied into a buffer and sliced to
    the count of the copy. *)
Lemma slice_of_copy (data b : list byte) (s : St) :
  (length data <= length b)%nat ->
  slice_to (fst (copy b data)) (snd (copy b data)) s = Returns data s.
Proof.
  intros H.
  assert (Hn : snd (copy b data) = Z.of_nat (length data)).
  { unfold copy. simpl. f_equal. lia. }
  rewrite Hn, slice_to_in_range by (rewrite copy_fst_length; lia).
  now rewrite Nat2Z.id, firstn_copied.
Qed.

Lemma ReadRTP_peeked (s : St) (data : list byte) (r : RTPReceiver) :
  receiver (track s) = Some r ->
  totalSenderCount (track s) = 0%Z ->
  peeked (track s) = Some data ->
  (length data <= receiveMTU)%nat ->
  ReadRTP s =
  match Unmarshal data with
  | inl e => Returns (None, Some e) (claimed_state s)
  | inr p => Returns (Some p, None) (claimed_state s)
  end.
Proof.
  intros Hr Ht Hp Hlen. unfold ReadRTP, bind.
  rewrite (Read_peeked _ _ Hr Ht Hp).
  rewrite slice_of_copy by (rewrite make_length; exact Hlen).
  now destruct (Unmarshal data).
Qed.

Lemma determinePayloadType_peeked (s : St) (data : list byte) (r : RTPReceiver) :
  receiver (track s) = Some r ->
  totalSenderCount (track s) = 0%Z ->
  peeked (track s) = Some data ->
  (length data <= receiveMTU)%nat ->
  determinePayloadType s =
  match Unmarshal data with
  | inl e => Returns (Some e) s
  | inr p =>
      Returns None
              (mkSt (set_payloadType (rtp.PayloadType (rtp.PacketHeader p))
                                     (track s))
                    (world s) (calls s))
  end.
Proof.
  intros Hr Ht Hp Hlen. unfold determinePayloadType, bind.
  rewrite (peek_peeked _ (make receiveMTU) Hr Ht Hp).
  rewrite make_length.
  replace (Nat.min receiveMTU (length data)) with (length data) by lia.
  rewrite firstn_all.
  rewrite <- Hp, set_peeked_same, St_eta.
  rewrite slice_to_in_range
    by (rewrite length_app, length_skipn, make_length; lia).
  rewrite Nat2Z.id, firstn_app, firstn_all, Nat.sub_diag. simpl firstn.
  rewrite app_nil_r.
  now destruct (Unmarshal data).
Qed.

(** What a determinePayloadType that returns nil has done. *)
Lemma determinePayloadType_ok_inv (s s2 : St) :
  determinePayloadType s = Returns None s2 ->
  exists data p r,
    receiver (track s2) = Some r /\
    totalSenderCount (track s2) = 0%Z /\
    peeked (track s2) = Some data /\
    (length data <= receiveMTU)%nat /\
    Unmarshal data = inr p /\
    payloadType (track s2) = rtp.PayloadType (rtp.PacketHeader p).
Proof.
  unfold determinePayloadType, bind. intros H.
  destruct (peek (make receiveMTU) s) as [[[b1 n] [e|]] s1|] eqn:Hpk;
    try discriminate.
  destruct (peek_ok_remote _ _ Hpk) as (r & Hr & Ht).
  destruct (peek_ok_inv _ _ Hpk) as (s0 & HR & Hn & Hs1).
  apply Read_length in HR. rewrite make_length in HR.
  rewrite slice_to_in_range in H by exact Hn.
  destruct (Unmarshal (firstn (Z.to_nat n) b1)) as [e|p] eqn:Hu;
    try discriminate.
  unfold bind, store, ret in H. injection H as <-.
  exists (firstn (Z.to_nat n) b1), p, r. simpl.
  repeat split; auto.
  - rewrite Hs1. reflexivity.
  - rewrite length_firstn. lia.
Qed.

(** X4: in remote mode, when the peeked slot holds a packet of at most
    receiveMTU bytes, ReadRTP deserializes this packet and empties the
    slot, without a call to the receiver: it returns the packet, or the
    error of the deserialization. *)
Theorem ReadRTP_serves_peeked (s : St) (data : list byte) (r : RTPReceiver) :
  receiver (track s) = Some r ->
  totalSenderCount (track s) = 0%Z ->
  peeked (track s) = Some data ->
  (length data <= receiveMTU)%nat ->
  let s' := mkSt (set_peeked None (track s)) (world s) (calls s) in
  (forall p, Unmarshal data = inr p -> ReadRTP s = Returns (Some p, None) s') /\
  (forall e, Unmarshal data = inl e -> ReadRTP s = Returns (None, Some e) s').
Proof.
  intros Hr Ht Hp Hlen s'. rewrite (ReadRTP_peeked _ Hr Ht Hp Hlen).
  split; intros x ->; reflexivity.
Qed.

(** X5: the packet that determinePayloadType looked at is not lost: after
    a determinePayloadType that returned nil, ReadRTP returns a packet
    whose payload type is the payloadType of the track, and it takes it
    from the peeked slot, without a call to the receiver. *)
Theorem determinePayloadType_then_ReadRTP (s s2 : St) :
  determinePayloadType s = Returns None s2 ->
  exists p,
    ReadRTP s2 =
      Returns (Some p, None)
              (mkSt (set_peeked None (track s2)) (world s2) (calls s2)) /\
    rtp.PayloadType (rtp.PacketHeader p) = payloadType (track s2).
Proof.
  intros H.
  destruct (determinePayloadType_ok_inv _ H)
    as (data & p & r & Hr & Ht & Hp & Hlen & Hu & Hpt).
  exists p. rewrite (ReadRTP_peeked _ Hr Ht Hp Hlen), Hu. auto.
Qed.

(** X6: determinePayloadType is idempotent: after a call that returned
    nil, a second call returns nil and leaves the state as it is; the
    receiver is not called again. *)
Theorem determinePayloadType_idempotent (s s2 : St) :
  determinePayloadType s = Returns None s2 ->
  determinePayloadType s2 = Returns None s2.
Proof.
  intros H.
  destruct (determinePayloadType_ok_inv _ H)
    as (data & p & r & Hr & Ht & Hp & Hlen & Hu & Hpt).
  rewrite (determinePayloadType_peeked _ Hr Ht Hp Hlen), Hu.
  now rewrite <- Hpt, set_payloadType_same, St_eta.
Qed.

(** X7: on a track with totalSenderCount != 0 or a nil receiver, peek and
    determinePayloadType return errTrackLocalTrackRead; the track, the
    world and the log of calls are as before, and nothing is put in the
    peeked slot. *)
Theorem peek_on_local_track (s : St) (b : list byte) :
  totalSenderCount (track s) <> 0%Z \/ receiver (track s) = None ->
  peek b s = Returns (b, 0%Z, Some errTrackLocalTrackRead) s /\
  determinePayloadType s = Returns (Some errTrackLocalTrackRead) s.
Proof.
  intros H. split.
  - unfold peek, bind. now rewrite Read_wrong_mode.
  - unfold determinePayloadType, peek, bind. now rewrite Read_wrong_mode.
Qed.

(** ** The count that the receiver returns *)

(** X8: in remote mode with an empty peeked slot, ReadRTP makes one call
    to the receiver with a buffer of receiveMTU bytes.  An error of the
    receiver is returned as it is.  Without an error, a count within the
    buffer gives the packet, or the error, of the deserialization of that
    many bytes; a count below 0 or above receiveMTU makes the slice
    expression b[:i] panic. *)
Theorem ReadRTP_from_receiver
        (s : St) (r : RTPReceiver) (w : list byte) (n : Z)
        (err : option error) (w' : World) :
  receiver (track s) = Some r ->
  totalSenderCount (track s) = 0%Z ->
  peeked (track s) = None ->
  readRTP r (make receiveMTU) (track s) (world s) = (w, n, err, w') ->
  let s' := mkSt (track s) w' (calls s ++ [CallReadRTP r receiveMTU]) in
  let b := overlay (make receiveMTU) w in
  (forall e, err = Some e -> ReadRTP s = Returns (None, Some e) s') /\
  (err = None -> (n < 0 \/ Z.of_nat receiveMTU < n)%Z -> ReadRTP s = Panics) /\
  (err = None -> (0 <= n <= Z.of_nat receiveMTU)%Z ->
   (forall p, Unmarshal (firstn (Z.to_nat n) b) = inr p ->
              ReadRTP s = Returns (Some p, None) s') /\
   (forall e, Unmarshal (firstn (Z.to_nat n) b) = inl e ->
              ReadRTP s = Returns (None, Some e) s')).
Proof.
  intros Hr Ht Hp Hrd s' b.
  assert (HR : Read (make receiveMTU) s = Returns (b, n, err) s').
  { rewrite (Read_live _ _ Hr Ht Hp), Hrd. unfold s'.
    now rewrite make_length. }
  assert (Hlen : length b = receiveMTU).
  { unfold b. now rewrite overlay_length, make_length. }
  unfold ReadRTP, bind. rewrite HR. split; [|split].
  - intros e ->. reflexivity.
  - intros -> Hout. unfold slice_to. rewrite Hlen.
    destruct ((0 <=? n)%Z && (n <=? Z.of_nat receiveMTU)%Z) eqn:Hin;
      [|reflexivity].
    apply andb_prop in Hin. destruct Hin as [H0 H1].
    apply Z.leb_le in H0, H1. lia.
  - intros -> Hin. rewrite slice_to_in_range by (rewrite Hlen; exact Hin).
    split; intros x ->; reflexivity.
Qed.

(** X9: in remote mode with an empty peeked slot, when the receiver
    returns no error and a count below 0 or above receiveMTU,
    determinePayloadType panics, in make([]byte, n) or in b[:n]. *)
Theorem determinePayloadType_count_out_of_range
        (s : St) (r : RTPReceiver) (w : list byte) (n : Z) (w' : World) :
  receiver (track s) = Some r ->
  totalSenderCount (track s) = 0%Z ->
  peeked (track s) = None ->
  readRTP r (make receiveMTU) (track s) (world s) = (w, n, None, w') ->
  (n < 0 \/ Z.of_nat receiveMTU < n)%Z ->
  determinePayloadType s = Panics.
Proof.
  intros Hr Ht Hp Hrd Hout.
  unfold determinePayloadType, peek, bind.
  rewrite (Read_live _ _ Hr Ht Hp), Hrd.
  unfold make_int, slice_to, bind, panic.
  destruct (n <? 0)%Z eqn:Hneg; [reflexivity|].
  apply Z.ltb_ge in Hneg. unfold ret at 1.
  rewrite overlay_length, make_length.
  destruct ((0 <=? n)%Z && (n <=? Z.of_nat receiveMTU)%Z) eqn:Hin;
    [|reflexivity].
  apply andb_prop in Hin. destruct Hin as [H0 H1].
  apply Z.leb_le in H0, H1. lia.
Qed.

(** Under the contract of the receiver, the count of a Read without an
    error is within the buffer. *)
Lemma Read_count_in_bounds (s s' : St) (b b' : list byte) (n : Z) :
  receiver_in_bounds ->
  Read b s = Returns (b', n, None) s' ->
  (0 <= n <= Z.of_nat (length b))%Z.
Proof.
  intros Hc H.
  destruct (receiver (track s)) as [r|] eqn:Hr.
  2:{ rewrite Read_wrong_mode in H by (now right). discriminate. }
  destruct (Z.eq_dec (totalSenderCount (track s)) 0) as [Ht|Ht].
  2:{ rewrite Read_wrong_mode in H by (now left). discriminate. }
  destruct (peeked (track s)) as [d|] eqn:Hp.
  - rewrite (Read_peeked _ _ Hr Ht Hp) in H. injection H as _ <- _.
    unfold copy. simpl. lia.
  - rewrite (Read_live _ _ Hr Ht Hp) in H.
    pose proof (Hc r b (track s) (world s)) as Hb.
    destruct (readRTP r b (track s) (world s)) as [[[w n0] e0] w'].
    injection H as _ Hn He _. subst n0 e0. simpl in Hb. auto.
Qed.

Lemma peek_returns (s : St) (b : list byte) :
  receiver_in_bounds ->
  exists b1 n err s1,
    peek b s = Returns (b1, n, err) s1 /\
    length b1 = length b /\
    (err = None -> (0 <= n <= Z.of_nat (length b))%Z).
Proof.
  intros Hc. destruct (Read_frame s b) as (b1 & n & err & s1 & HR & _).
  pose proof (Read_length _ _ HR) as Hlen.
  unfold peek, bind. rewrite HR. destruct err as [e|].
  - do 4 eexists. split; [reflexivity|]. split; [exact Hlen | discriminate].
  - pose proof (Read_count_in_bounds _ _ Hc HR) as Hn.
    unfold make_int, bind.
    destruct (n <? 0)%Z eqn:Hneg; [apply Z.ltb_lt in Hneg; lia|].
    unfold ret at 1.
    rewrite slice_to_in_range by (rewrite Hlen; exact Hn).
    rewrite copy_make_exact by lia.
    do 4 eexists. split; [reflexivity|]. split; [exact Hlen|].
    intros _. rewrite Z2Nat.id; lia.
Qed.

(** X10: when the receiver keeps the contract of a reader (without an
    error, 0 <= n <= len(b)), the inbound path does not panic: Read, peek,
    ReadRTP and determinePayloadType return in every state, and the count
    of a Read or a peek without an error is within the buffer. *)
Theorem inbound_path_returns (s : St) (b : list byte) :
  receiver_in_bounds ->
  (exists b' n err s', Read b s = Returns (b', n, err) s' /\
                       (err = None -> (0 <= n <= Z.of_nat (length b))%Z)) /\
  (exists b' n err s', peek b s = Returns (b', n, err) s' /\
                       (err = None -> (0 <= n <= Z.of_nat (length b))%Z)) /\
  (exists p err s', ReadRTP s = Returns (p, err) s') /\
  (exists err s', determinePayloadType s = Returns err s').
Proof.
  intros Hc. split; [|split; [|split]].
  - destruct (Read_frame s b) as (b1 & n & err & s1 & HR & _).
    exists b1, n, err, s1. split; [exact HR|].
    intros ->. exact (Read_count_in_bounds _ _ Hc HR).
  - destruct (peek_returns s b Hc) as (b1 & n & err & s1 & Hpk & _ & Hn).
    exists b1, n, err, s1. auto.
  - destruct (Read_frame s (make receiveMTU)) as (b1 & n & err & s1 & HR & _).
    pose proof (Read_length _ _ HR) as Hlen.
    unfold ReadRTP, bind. rewrite HR. destruct err as [e|].
    + now do 3 eexists.
    + pose proof (Read_count_in_bounds _ _ Hc HR) as Hn.
      rewrite slice_to_in_range by (rewrite Hlen; exact Hn).
      destruct (Unmarshal _); now do 3 eexists.
  - destruct (peek_returns s (make receiveMTU) Hc)
      as (b1 & n & err & s1 & Hpk & Hlen & Hn).
    unfold determinePayloadType, bind. rewrite Hpk. destruct err as [e|].
    + now do 2 eexists.
    + rewrite slice_to_in_range by (rewrite Hlen; auto).
      destruct (Unmarshal _); now do 2 eexists.
Qed.

(** ** The two modes *)

(** X11: no track both reads and writes: in every state, Read is refused
    with errTrackLocalTrackRead or WriteRTP is refused with
    errTrackLocalTrackWrite, and the refused call leaves the state as it
    is. *)
Theorem read_or_write_refused (s : St) (b : list byte) (p : rtp.Packet) :
  Read b s = Returns (b, 0%Z, Some errTrackLocalTrackRead) s \/
  WriteRTP p s = Returns (Some errTrackLocalTrackWrite) s.
Proof.
  destruct (receiver (track s)) as [r|] eqn:Hr.
  - right. exact (WriteRTP_remote _ _ Hr).
  - left. apply Read_wrong_mode. now right.
Qed.

(** On a pointer that is not nil, WriteRTP_ptr is WriteRTP on the
    packet. *)
Lemma WriteRTP_ptr_range_Some (senders : list RTPSender) (pk : rtp.Packet) :
  forall (writeErrs : list error) (s : St),
    WriteRTP_ptr_range senders (Some pk) writeErrs s =
    WriteRTP_range senders pk writeErrs s.
Proof.
  induction senders as [|sd senders IH]; intros writeErrs s; simpl.
  - reflexivity.
  - unfold bind. destruct (call _ _ s) as [[k [e|]] s1|]; auto.
Qed.

Lemma WriteRTP_ptr_Some (pk : rtp.Packet) (s : St) :
  WriteRTP_ptr (Some pk) s = WriteRTP pk s.
Proof.
  unfold WriteRTP_ptr, WriteRTP, bind, load.
  destruct (negb (is_nil (receiver (track s)))); [reflexivity|].
  destruct (totalSenderCount (track s) =? 0)%Z; [reflexivity|].
  now rewrite WriteRTP_ptr_range_Some.
Qed.

(** X12: WriteRTP on a pointer to a packet.  When the track has a
    receiver, or totalSenderCount = 0, it returns an error in the state
    it started from, for every pointer, nil included.  Otherwise, on a
    pointer that is not nil it returns, leaves the track as it is, and
    its calls are one SendRTP per active sender, in order: it calls
    neither the receiver nor the packetizer.  On a nil pointer it returns
    nil, with no call, when no sender is active, and it panics on
    p.Header when a sender is active. *)
Theorem WriteRTP_effects (s : St) (p : option rtp.Packet) :
  (receiver (track s) <> None \/ totalSenderCount (track s) = 0%Z ->
   exists e, WriteRTP_ptr p s = Returns (Some e) s) /\
  (receiver (track s) = None ->
   totalSenderCount (track s) <> 0%Z ->
   (forall pk,
       p = Some pk ->
       exists err s',
         WriteRTP_ptr p s = Returns err s' /\
         track s' = track s /\
         calls s' =
           calls s ++
           map (fun sd => CallSendRTP sd (rtp.PacketHeader pk) (rtp.Payload pk))
               (activeSenders (track s))) /\
   (p = None -> activeSenders (track s) = [] ->
    WriteRTP_ptr p s = Returns None s) /\
   (p = None -> activeSenders (track s) <> [] ->
    WriteRTP_ptr p s = Panics)).
Proof.
  split.
  - intros Hmode. unfold WriteRTP_ptr, bind, load.
    destruct (receiver (track s)) as [r|] eqn:Hr; simpl.
    + now exists errTrackLocalTrackWrite.
    + destruct Hmode as [Hmode|Hmode]; [contradiction|].
      rewrite Hmode. now exists ErrClosedPipe.
  - intros Hr Ht. split; [|split].
    + intros pk ->. rewrite WriteRTP_ptr_Some.
      rewrite (WriteRTP_local _ _ Hr Ht). do 2 eexists.
      split; [reflexivity|]. split; reflexivity.
    + intros -> Hs. unfold WriteRTP_ptr, bind, load. rewrite Hr. simpl.
      apply Z.eqb_neq in Ht. rewrite Ht, Hs. reflexivity.
    + intros -> Hs. unfold WriteRTP_ptr, bind, load. rewrite Hr. simpl.
      apply Z.eqb_neq in Ht. rewrite Ht.
      destruct (activeSenders (track s)); [contradiction | reflexivity].
Qed.

(** ** Write *)

(** X13: Write checks the bytes before the mode of the track.  On a track
    with a receiver it returns 0 and the error of the deserialization, or
    errTrackLocalTrackWrite when the bytes are a packet; on a track
    without receiver and with totalSenderCount = 0 it returns 0 and the
    error of the deserialization, or io.ErrClosedPipe.  The state is as
    before in each case. *)
Theorem Write_refused (s : St) (b : list byte) :
  (forall r, receiver (track s) = Some r ->
             Write b s =
             Returns (0%Z, Some (match Unmarshal b with
                                 | inl e => e
                                 | inr _ => errTrackLocalTrackWrite
                                 end)) s) /\
  (receiver (track s) = None ->
   totalSenderCount (track s) = 0%Z ->
   Write b s =
   Returns (0%Z, Some (match Unmarshal b with
                       | inl e => e
                       | inr _ => ErrClosedPipe
                       end)) s).
Proof.
  unfold Write, bind. split.
  - intros r Hr. destruct (Unmarshal b) as [e|packet]; [reflexivity|].
    now rewrite (WriteRTP_remote _ _ Hr).
  - intros Hr Ht. destruct (Unmarshal b) as [e|packet]; [reflexivity|].
    now rewrite (WriteRTP_no_sender _ _ Hr Ht).
Qed.

(** X14: Write returns in every state and leaves the track as it is; it
    returns len(b) and a nil error, or 0 and an error: never a count in
    between. *)
Theorem Write_all_or_nothing (s : St) (b : list byte) :
  exists n err s',
    Write b s = Returns (n, err) s' /\
    track s' = track s /\
    ((n = Z.of_nat (length b) /\ err = None) \/
     (n = 0%Z /\ exists e, err = Some e)).
Proof.
  unfold Write, bind. destruct (Unmarshal b) as [e|packet].
  - do 3 eexists. split; [reflexivity|]. split; [reflexivity|].
    right. split; [reflexivity | now exists e].
  - destruct (WriteRTP_returns s packet) as (err & s' & -> & Ht & _).
    destruct err as [e|]; do 3 eexists;
      (split; [reflexivity|]; split; [exact Ht|]).
    + right. split; [reflexivity | now exists e].
    + left. split; reflexivity.
Qed.

(** ** WriteSample *)

Lemma WriteSample_run (s : St) (smp : media.Sample) (pz : rtp.Packetizer)
      (packets : list rtp.Packet) (w1 : World) :
  packetizer (track s) = Some pz ->
  Packetize pz (media.Data smp) (media.Samples smp) (world s) = (packets, w1) ->
  WriteSample smp s =
  WriteSample_range packets
    (mkSt (track s) w1
          (calls s ++ [CallPacketize pz (media.Data smp) (media.Samples smp)])).
Proof.
  intros Hpz Hpk. unfold WriteSample, bind, load, call.
  rewrite Hpz, Hpk. reflexivity.
Qed.

(** X15: WriteSample packetizes before the mode of the track is looked
    at.  On a track with a receiver, or with totalSenderCount = 0, the
    packetizer is called all the same; WriteSample then returns nil when
    the packetizer made no packet, and the error of the first WriteRTP
    (errTrackLocalTrackWrite with a receiver, io.ErrClosedPipe otherwise)
    when it made one.  No sender is called. *)
Theorem WriteSample_refused
        (s : St) (smp : media.Sample) (pz : rtp.Packetizer)
        (packets : list rtp.Packet) (w1 : World) :
  packetizer (track s) = Some pz ->
  Packetize pz (media.Data smp) (media.Samples smp) (world s) = (packets, w1) ->
  receiver (track s) <> None \/ totalSenderCount (track s) = 0%Z ->
  WriteSample smp s =
  Returns (match packets with
           | [] => None
           | _ :: _ =>
               Some (if is_nil (receiver (track s))
                     then ErrClosedPipe else errTrackLocalTrackWrite)
           end)
          (mkSt (track s) w1
                (calls s ++
                 [CallPacketize pz (media.Data smp) (media.Samples smp)])).
Proof.
  intros Hpz Hpk Hmode. rewrite (WriteSample_run _ _ Hpz Hpk).
  destruct packets as [|p packets]; [reflexivity|].
  simpl. unfold bind.
  destruct (receiver (track s)) as [r|] eqn:Hr.
  - rewrite (@WriteRTP_remote _ _ p r) by exact Hr. reflexivity.
  - destruct Hmode as [Hmode|Hmode]; [contradiction|].
    rewrite WriteRTP_no_sender by assumption. reflexivity.
Qed.

(** X16: on a track with a packetizer, WriteSample returns and leaves the
    track as it is.  After the call to the packetizer, its calls are the
    calls of WriteRTP on the first k packets.  When it returns nil, k is
    the number of the packets and WriteRTP succeeded on all of them.
    When it returns an error, WriteRTP succeeded on the first k - 1
    packets and failed on the k-th with this error, and the state is the
    one this failed call left: nothing is sent after it. *)
Theorem WriteSample_effects
        (s : St) (smp : media.Sample) (pz : rtp.Packetizer)
        (packets : list rtp.Packet) (w1 : World) :
  packetizer (track s) = Some pz ->
  Packetize pz (media.Data smp) (media.Samples smp) (world s) = (packets, w1) ->
  let s1 := mkSt (track s) w1
                 (calls s ++
                  [CallPacketize pz (media.Data smp) (media.Samples smp)]) in
  exists err s' k,
    WriteSample smp s = Returns err s' /\
    track s' = track s /\
    (k <= length packets)%nat /\
    calls s' =
      calls s ++
      CallPacketize pz (media.Data smp) (media.Samples smp)
      :: flat_map (sends (track s)) (firstn k packets) /\
    (err = None -> k = length packets /\ writes_ok packets s1 s') /\
    (forall e, err = Some e ->
               exists before p after s2,
                 packets = before ++ p :: after /\
                 k = S (length before) /\
                 writes_ok before s1 s2 /\
                 WriteRTP p s2 = Returns (Some e) s').
Proof.
  intros Hpz Hpk s1. rewrite (WriteSample_run _ _ Hpz Hpk). fold s1.
  destruct (WriteSample_range_cases packets s1)
    as [(s2 & Hok) | (before & p & after & s2 & e & s3 & Heq & Hok & Hf)].
  - exists None, s2, (length packets).
    rewrite (WriteSample_range_ok Hok).
    destruct (writes_ok_calls Hok) as [Ht Hc].
    split; [reflexivity|]. split; [exact Ht|]. split; [lia|].
    split; [|split; [auto | discriminate]].
    rewrite Hc, firstn_all. simpl. now rewrite <- app_assoc.
  - exists (Some e), s3, (S (length before)).
    rewrite Heq, (WriteSample_range_stops Hok _ _ Hf).
    destruct (writes_ok_calls Hok) as [Ht Hc].
    destruct (WriteRTP_returns s2 p) as (err & s0 & Hw & Ht' & Hc').
    rewrite Hf in Hw. injection Hw as <- <-.
    split; [reflexivity|]. split; [now rewrite Ht', Ht|].
    split; [rewrite length_app; simpl; lia|].
    split; [|split].
    + replace (before ++ p :: after) with ((before ++ [p]) ++ after)
        by (now rewrite <- app_assoc).
      replace (S (length before)) with (length (before ++ [p]))
        by (rewrite length_app; simpl; lia).
      rewrite firstn_app, firstn_all, Nat.sub_diag. simpl firstn.
      rewrite app_nil_r, flat_map_app. simpl.
      rewrite Hc', Hc, Ht, app_nil_r. simpl.
      now rewrite <- !app_assoc.
    + discriminate.
    + intros e0 He. injection He as <-.
      exists before, p, after, s2. auto.
Qed.

(** X17: on a track without packetizer, WriteSample panics, whatever the
    mode of the track: the packetizer is used before any test.  WriteRTP
    on the same track, when the track has a receiver or
    totalSenderCount = 0, returns errTrackLocalTrackWrite or
    io.ErrClosedPipe in the state it started from, for every pointer to
    a packet, nil included. *)
Theorem WriteSample_without_packetizer (s : St) (smp : media.Sample) :
  packetizer (track s) = None ->
  WriteSample smp s = Panics /\
  (receiver (track s) <> None ->
   forall p, WriteRTP_ptr p s = Returns (Some errTrackLocalTrackWrite) s) /\
  (receiver (track s) = None ->
   totalSenderCount (track s) = 0%Z ->
   forall p, WriteRTP_ptr p s = Returns (Some ErrClosedPipe) s).
Proof.
  intros Hpz. split; [|split].
  - unfold WriteSample, bind, load. now rewrite Hpz.
  - intros Hr p. unfold WriteRTP_ptr, bind, load.
    destruct (receiver (track s)); [reflexivity | contradiction].
  - intros Hr Ht p. unfold WriteRTP_ptr, bind, load.
    rewrite Hr. simpl. now rewrite Ht.
Qed.

(** ** A new track *)

(** X18: on the track that NewTrack returns, the accessors return the
    arguments of NewTrack: SSRC, PayloadType, ID, Label and Codec; Kind
    returns the type of the codec, RID the empty string, Msid the label,
    a space and the id; Packetizer returns the packetizer made of
    rtpOutboundMTU = 1200, the payload type, the ssrc, the payloader and
    the clock rate of the codec, and a sequencer of NewRandomSequencer.
    The accessors leave the state as it is. *)
Theorem NewTrack_then_accessors
        (pt sc : N) (i l : string) (c : RTPCodec) (w : World) :
  sc <> 0%N ->
  exists t w',
    NewTrack pt sc i l (Some c) w = Returns (Some t, None) w' /\
    forall cs,
      SSRC (mkSt t w' cs) = Returns sc (mkSt t w' cs) /\
      PayloadType (mkSt t w' cs) = Returns pt (mkSt t w' cs) /\
      Kind (mkSt t w' cs) = Returns (Type_ c) (mkSt t w' cs) /\
      ID (mkSt t w' cs) = Returns i (mkSt t w' cs) /\
      Label (mkSt t w' cs) = Returns l (mkSt t w' cs) /\
      RID (mkSt t w' cs) = Returns ""%string (mkSt t w' cs) /\
      Codec (mkSt t w' cs) = Returns (Some c) (mkSt t w' cs) /\
      Msid (mkSt t w' cs) = Returns (l ++ " " ++ i)%string (mkSt t w' cs) /\
      Packetizer (mkSt t w' cs) =
        Returns (Some (rtp.NewPacketizer 1200 pt sc (Payloader c)
                                         (fst (NewRandomSequencer w))
                                         (ClockRate c)))
                (mkSt t w' cs) /\
      w' = snd (NewRandomSequencer w).
Proof.
  intros Hsc. unfold NewTrack, bind, ret.
  apply N.eqb_neq in Hsc. rewrite Hsc.
  destruct (NewRandomSequencer w) as [sq w'].
  do 2 eexists. split; [reflexivity|].
  intros cs. repeat split.
Qed.

(** X19: the track that NewTrack returns neither reads nor writes before
    a sender or a receiver is attached to it: Read, peek and
    determinePayloadType return errTrackLocalTrackRead, WriteRTP returns
    io.ErrClosedPipe, and the state is as before. *)
Theorem NewTrack_track_is_closed
        (pt sc : N) (i l : string) (cd : option RTPCodec) (w w' : World)
        (t : Track) (cs : list Call) (b : list byte) (p : rtp.Packet) :
  NewTrack pt sc i l cd w = Returns (Some t, None) w' ->
  Read b (mkSt t w' cs) =
    Returns (b, 0%Z, Some errTrackLocalTrackRead) (mkSt t w' cs) /\
  peek b (mkSt t w' cs) =
    Returns (b, 0%Z, Some errTrackLocalTrackRead) (mkSt t w' cs) /\
  determinePayloadType (mkSt t w' cs) =
    Returns (Some errTrackLocalTrackRead) (mkSt t w' cs) /\
  WriteRTP p (mkSt t w' cs) = Returns (Some ErrClosedPipe) (mkSt t w' cs).
Proof.
  unfold NewTrack, bind, ret. intros H.
  destruct (sc =? 0)%N; [discriminate|].
  destruct cd as [c|]; [|discriminate].
  destruct (NewRandomSequencer w) as [sq w0].
  injection H as <- <-.
  repeat split; reflexivity.
Qed.

(** X20: NewTrack tests the ssrc before it reads the codec: with a nil
    codec it returns errTrackSSRCNewTrackZero when ssrc = 0, and panics on
    codec.Payloader for any other ssrc, before the sequencer is made. *)
Theorem NewTrack_without_codec (pt sc : N) (i l : string) (w : World) :
  (sc = 0%N ->
   NewTrack pt sc i l None w =
   Returns (None, Some errTrackSSRCNewTrackZero) w) /\
  (sc <> 0%N -> NewTrack pt sc i l None w = Panics).
Proof.
  unfold NewTrack. split.
  - intros ->. reflexivity.
  - intros Hsc. apply N.eqb_neq in Hsc. now rewrite Hsc.
Qed.

End MoreProperties.
(** * The properties on the test doubles *)

#[local] Existing Instance Mock.collaborators.

(** C3, on the local track with three senders. *)
Lemma Read_on_local_track_witness :
  (totalSenderCount (track (Mock.start Mock.local_track Mock.quiet)) <> 0%Z \/
   receiver (track (Mock.start Mock.local_track Mock.quiet)) = None) /\
  Read (make 4) (Mock.start Mock.local_track Mock.quiet) =
    Returns (make 4, 0%Z, Some errTrackLocalTrackRead)
            (Mock.start Mock.local_track Mock.quiet) /\
  ReadRTP (Mock.start Mock.local_track Mock.quiet) =
    Returns (None, Some errTrackLocalTrackRead)
            (Mock.start Mock.local_track Mock.quiet).
Proof.
  assert (H : totalSenderCount (track (Mock.start Mock.local_track Mock.quiet))
              <> 0%Z \/
              receiver (track (Mock.start Mock.local_track Mock.quiet)) = None)
    by (right; reflexivity).
  split; [exact H|].
  exact (Read_on_local_track (Mock.start Mock.local_track Mock.quiet)
                             (make 4) H).
Defined.

(** C9, on a buffer of two bytes and a peeked packet of four. *)
Lemma Read_claims_peeked_witness :
  Read [x00; x00]
       (Mock.start (set_peeked (Some Mock.junk) Mock.remote_track) Mock.quiet) =
  Returns ([x01; x02], 2%Z, None) (Mock.start Mock.remote_track Mock.quiet).
Proof.
  destruct (@Read_claims_peeked Mock.collaborators
              (Mock.start (set_peeked (Some Mock.junk) Mock.remote_track)
                          Mock.quiet)
              [x00; x00] Mock.junk 9 eq_refl eq_refl eq_refl) as [H _].
  exact H.
Defined.

(** C8, on a receiver that delivers one packet of fourteen bytes. *)
Lemma peek_then_Read_witness :
  peek (make 16) (Mock.start Mock.remote_track (Mock.delivers Mock.rtp_bytes)) =
    Returns (Mock.rtp_bytes ++ make 2, 14%Z, None)
            (Mock.state (set_peeked (Some Mock.rtp_bytes) Mock.remote_track)
                  Mock.quiet [CallReadRTP 9 16]) /\
  Read (make 14)
       (Mock.state (set_peeked (Some Mock.rtp_bytes) Mock.remote_track)
             Mock.quiet [CallReadRTP 9 16]) =
    Returns (Mock.rtp_bytes, 14%Z, None)
            (Mock.state Mock.remote_track Mock.quiet [CallReadRTP 9 16]).
Proof.
  assert (H : peek (make 16)
                   (Mock.start Mock.remote_track
                               (Mock.delivers Mock.rtp_bytes)) =
              Returns (Mock.rtp_bytes ++ make 2, 14%Z, None)
                      (Mock.state (set_peeked (Some Mock.rtp_bytes) Mock.remote_track)
                            Mock.quiet [CallReadRTP 9 16]))
    by reflexivity.
  split; [exact H|].
  destruct (peek_then_Read _ _ H) as (_ & _ & HR).
  apply (HR (make 14)). simpl. lia.
Defined.

(** C7, on a receiver that delivers an RTP packet of payload type 96, on
    one that has nothing to deliver, and on one that delivers four bytes:
    the payload type of the remote track is 0 before the call, and 96
    after the first one. *)
Lemma determinePayloadType_spec_witness :
  payloadType
    (track (Mock.start Mock.remote_track (Mock.delivers Mock.rtp_bytes))) =
    0%N /\
  (exists s',
      determinePayloadType
        (Mock.start Mock.remote_track (Mock.delivers Mock.rtp_bytes)) =
        Returns None s' /\
      payloadType (track s') = 96%N /\
      track s' =
        mkTrack "video" 96 RTPCodecTypeVideo "remote" 6000 None ""
                None (Some 9) [] 0 (Some Mock.rtp_bytes) /\
      world s' = Mock.quiet /\
      calls s' = [CallReadRTP 9 1460]) /\
  (determinePayloadType (Mock.start Mock.remote_track Mock.quiet) =
     Returns (Some (Err "EOF"))
             (Mock.state Mock.remote_track Mock.quiet [CallReadRTP 9 1460]) /\
   payloadType
     (track (Mock.state Mock.remote_track Mock.quiet [CallReadRTP 9 1460])) =
   payloadType (track (Mock.start Mock.remote_track Mock.quiet))) /\
  (determinePayloadType
     (Mock.start Mock.remote_track (Mock.delivers Mock.junk)) =
     Returns (Some (Err "RTP header size insufficient"))
             (Mock.state (set_peeked (Some Mock.junk) Mock.remote_track)
                   Mock.quiet [CallReadRTP 9 1460]) /\
   payloadType
     (track (Mock.state (set_peeked (Some Mock.junk) Mock.remote_track)
                  Mock.quiet [CallReadRTP 9 1460])) =
   payloadType
     (track (Mock.start Mock.remote_track (Mock.delivers Mock.junk)))).
Proof.
  split; [reflexivity|]. split; [|split].
  - destruct (determinePayloadType_spec
                (Mock.start Mock.remote_track (Mock.delivers Mock.rtp_bytes)))
      as (H & _ & _).
    apply (H (Mock.rtp_bytes ++ make 1446) 14%Z
             (Mock.state (set_peeked (Some Mock.rtp_bytes) Mock.remote_track)
                   Mock.quiet [CallReadRTP 9 1460])
             (rtp.mkPacket (rtp.mkHeader false 96 1 10 6000) [xca; xfe]));
      vm_compute; reflexivity.
  - destruct (determinePayloadType_spec
                (Mock.start Mock.remote_track Mock.quiet)) as (_ & H & _).
    apply (H (make 1460) 0%Z). vm_compute; reflexivity.
  - destruct (determinePayloadType_spec
                (Mock.start Mock.remote_track (Mock.delivers Mock.junk)))
      as (_ & _ & H).
    apply (H (Mock.junk ++ make 1456) 4%Z); vm_compute; reflexivity.
Defined.

(** C10, on a receiver that delivers four bytes that are no RTP packet. *)
Lemma determinePayloadType_leaves_peeked_witness :
  determinePayloadType
    (Mock.start Mock.remote_track (Mock.delivers Mock.junk)) =
    Returns (Some (Err "RTP header size insufficient"))
            (Mock.state (set_peeked (Some Mock.junk) Mock.remote_track)
                  Mock.quiet [CallReadRTP 9 1460]) /\
  Read (make 8)
       (Mock.state (set_peeked (Some Mock.junk) Mock.remote_track)
             Mock.quiet [CallReadRTP 9 1460]) =
    Returns (Mock.junk ++ make 4, 4%Z, None)
            (Mock.state Mock.remote_track Mock.quiet [CallReadRTP 9 1460]).
Proof.
  assert (Hpk : peek (make receiveMTU)
                     (Mock.start Mock.remote_track (Mock.delivers Mock.junk)) =
                Returns (Mock.junk ++ make 1456, 4%Z, None)
                        (Mock.state (set_peeked (Some Mock.junk) Mock.remote_track)
                              Mock.quiet [CallReadRTP 9 1460]))
    by (vm_compute; reflexivity).
  assert (Hu : Unmarshal (firstn (Z.to_nat 4) (Mock.junk ++ make 1456)) =
               inl (Err "RTP header size insufficient"))
    by (vm_compute; reflexivity).
  destruct (determinePayloadType_leaves_peeked _ Hpk Hu) as (H & _ & _ & HR & _).
  split; [exact H | exact (HR (make 8))].
Defined.


(** C2, on the remote track, on a track without sender, and on a track
    of which no sender is active. *)
Lemma WriteRTP_gates_witness :
  WriteRTP (Mock.packet 1 [x01]) (Mock.start Mock.remote_track Mock.quiet) =
    Returns (Some errTrackLocalTrackWrite)
            (Mock.start Mock.remote_track Mock.quiet) /\
  WriteRTP (Mock.packet 1 [x01]) (Mock.start Mock.fresh_track Mock.quiet) =
    Returns (Some ErrClosedPipe) (Mock.start Mock.fresh_track Mock.quiet) /\
  WriteRTP (Mock.packet 1 [x01]) (Mock.start Mock.paused_track Mock.quiet) =
    Returns None (Mock.start Mock.paused_track Mock.quiet).
Proof.
  split; [|split].
  - destruct (WriteRTP_gates (Mock.start Mock.remote_track Mock.quiet)
                             (Mock.packet 1 [x01])) as (H & _ & _).
    apply (H 9). reflexivity.
  - destruct (WriteRTP_gates (Mock.start Mock.fresh_track Mock.quiet)
                             (Mock.packet 1 [x01])) as (_ & H & _).
    apply H; reflexivity.
  - destruct (WriteRTP_gates (Mock.start Mock.paused_track Mock.quiet)
                             (Mock.packet 1 [x01])) as (_ & _ & H).
    apply H; [reflexivity | simpl; lia | reflexivity].
Defined.

(** C5, on a sample of three bytes: the senders refuse the packet of the
    second byte, and the packet of the third byte is not sent. *)
Lemma WriteSample_fail_fast_witness :
  WriteSample (media.mkSample [x01; xff; x03] 3)
              (Mock.start Mock.local_track Mock.quiet) =
    Returns (Some (multiError [Err "write failed"; Err "write failed";
                               Err "write failed"]))
            (Mock.state Mock.local_track (Mock.mkWorld [] [] 3 3)
               (CallPacketize Mock.pz [x01; xff; x03] 3
                :: send_calls [1; 2; 3]
                              (rtp.mkPacket
                                 (rtp.mkHeader false 111 0 0 5000) [x01])
                ++ send_calls [1; 2; 3]
                              (rtp.mkPacket
                                 (rtp.mkHeader false 111 1 0 5000) [xff]))) /\
  WriteSample (media.mkSample [x01; x02] 2)
              (Mock.start Mock.local_track Mock.quiet) =
    Returns None
            (Mock.state Mock.local_track (Mock.mkWorld [] [] 6 2)
               (CallPacketize Mock.pz [x01; x02] 2
                :: send_calls [1; 2; 3]
                              (rtp.mkPacket
                                 (rtp.mkHeader false 111 0 0 5000) [x01])
                ++ send_calls [1; 2; 3]
                              (rtp.mkPacket
                                 (rtp.mkHeader false 111 1 0 5000) [x02]))).
Proof.
  split.
  - destruct (@WriteSample_fail_fast Mock.collaborators
                (Mock.start Mock.local_track Mock.quiet)
                (media.mkSample [x01; xff; x03] 3) Mock.pz
                (Mock.one_per_byte Mock.pz [x01; xff; x03] 0)
                (Mock.mkWorld [] [] 0 3) eq_refl eq_refl) as (_ & H & _).
    refine (proj1 (H [rtp.mkPacket (rtp.mkHeader false 111 0 0 5000) [x01]]
                     (rtp.mkPacket (rtp.mkHeader false 111 1 0 5000) [xff])
                     [rtp.mkPacket (rtp.mkHeader false 111 2 0 5000) [x03]]
                     _ _ _ eq_refl _ _)).
    + eapply writes_ok_cons; [reflexivity | apply writes_ok_nil].
    + reflexivity.
  - destruct (@WriteSample_fail_fast Mock.collaborators
                (Mock.start Mock.local_track Mock.quiet)
                (media.mkSample [x01; x02] 2) Mock.pz
                (Mock.one_per_byte Mock.pz [x01; x02] 0)
                (Mock.mkWorld [] [] 0 2) eq_refl eq_refl) as (H & _ & _).
    apply H.
    eapply writes_ok_cons; [reflexivity|].
    eapply writes_ok_cons; [reflexivity|].
    apply writes_ok_nil.
Defined.

(** C6, on bytes that are no RTP packet, on a track with a receiver, and
    on the local track: the senders answer 2, Write answers 14. *)
Lemma Write_spec_witness :
  Write Mock.junk (Mock.start Mock.local_track Mock.quiet) =
    Returns (0%Z, Some (Err "RTP header size insufficient"))
            (Mock.start Mock.local_track Mock.quiet) /\
  Write Mock.rtp_bytes (Mock.start Mock.remote_track Mock.quiet) =
    Returns (0%Z, Some errTrackLocalTrackWrite)
            (Mock.start Mock.remote_track Mock.quiet) /\
  Write Mock.rtp_bytes (Mock.start Mock.local_track Mock.quiet) =
    Returns (14%Z, None)
            (Mock.state Mock.local_track (Mock.mkWorld [] [] 3 0)
               (send_calls [1; 2; 3]
                  (rtp.mkPacket (rtp.mkHeader false 96 1 10 6000)
                                [xca; xfe]))).
Proof.
  split; [|split].
  - destruct (Write_spec (Mock.start Mock.local_track Mock.quiet) Mock.junk)
      as (H & _ & _ & _).
    apply H. reflexivity.
  - destruct (Write_spec (Mock.start Mock.remote_track Mock.quiet)
                         Mock.rtp_bytes) as (_ & H & _ & _).
    apply (H (rtp.mkPacket (rtp.mkHeader false 96 1 10 6000) [xca; xfe]));
      reflexivity.
  - destruct (Write_spec (Mock.start Mock.local_track Mock.quiet)
                         Mock.rtp_bytes) as (_ & _ & H & _).
    apply (H (rtp.mkPacket (rtp.mkHeader false 96 1 10 6000) [xca; xfe]));
      reflexivity.
Defined.

(** C4, on ssrc = 0 and on ssrc = 5000 with the codec opus. *)
Lemma NewTrack_spec_witness :
  NewTrack 111 0 "audio" "pion" (Some Mock.opus) Mock.quiet =
    Returns (None, Some errTrackSSRCNewTrackZero) Mock.quiet /\
  exists t w',
    NewTrack 111 5000 "audio" "pion" (Some Mock.opus) Mock.quiet =
      Returns (Some t, None) w' /\
    ssrc t = 5000%N /\ payloadType t = 111%N /\
    kind t = RTPCodecTypeAudio /\ codec t = Some Mock.opus /\
    id t = "audio"%string /\ label t = "pion"%string /\
    receiver t = None /\
    activeSenders t = [] /\ totalSenderCount t = 0%Z.
Proof.
  split.
  - destruct (@NewTrack_spec Mock.collaborators 111 0 "audio" "pion")
      as (H & _).
    apply H. reflexivity.
  - destruct (@NewTrack_spec Mock.collaborators 111 5000 "audio" "pion")
      as (_ & H).
    apply (H Mock.opus Mock.quiet). lia.
Defined.

(** X2, on a buffer of two bytes and a peeked packet of four. *)
Lemma peek_serves_peeked_witness :
  peek [x00; x00]
       (Mock.start (set_peeked (Some Mock.junk) Mock.remote_track) Mock.quiet) =
  Returns ([x01; x02], 2%Z, None)
          (Mock.start (set_peeked (Some [x01; x02]) Mock.remote_track)
                      Mock.quiet).
Proof.
  exact (@peek_serves_peeked Mock.collaborators
           (Mock.start (set_peeked (Some Mock.junk) Mock.remote_track)
                       Mock.quiet)
           [x00; x00] Mock.junk 9 eq_refl eq_refl eq_refl).
Defined.

(** X3, on a receiver that delivers one packet of fourteen bytes. *)
Lemma peek_idempotent_witness :
  peek (make 16) (Mock.start Mock.remote_track (Mock.delivers Mock.rtp_bytes)) =
    Returns (Mock.rtp_bytes ++ make 2, 14%Z, None)
            (Mock.state (set_peeked (Some Mock.rtp_bytes) Mock.remote_track)
                        Mock.quiet [CallReadRTP 9 16]) /\
  peek (make 14)
       (Mock.state (set_peeked (Some Mock.rtp_bytes) Mock.remote_track)
                   Mock.quiet [CallReadRTP 9 16]) =
    Returns (Mock.rtp_bytes, 14%Z, None)
            (Mock.state (set_peeked (Some Mock.rtp_bytes) Mock.remote_track)
                        Mock.quiet [CallReadRTP 9 16]).
Proof.
  assert (H : peek (make 16)
                   (Mock.start Mock.remote_track
                               (Mock.delivers Mock.rtp_bytes)) =
              Returns (Mock.rtp_bytes ++ make 2, 14%Z, None)
                      (Mock.state
                         (set_peeked (Some Mock.rtp_bytes) Mock.remote_track)
                         Mock.quiet [CallReadRTP 9 16]))
    by reflexivity.
  split; [exact H|].
  apply (@peek_idempotent Mock.collaborators _ _ _ _ (make 14) _ H).
  simpl. lia.
Defined.

(** X4, on a peeked RTP packet of fourteen bytes. *)
Lemma ReadRTP_serves_peeked_witness :
  ReadRTP (Mock.start (set_peeked (Some Mock.rtp_bytes) Mock.remote_track)
                      Mock.quiet) =
  Returns (Some (rtp.mkPacket (rtp.mkHeader false 96 1 10 6000) [xca; xfe]),
           None)
          (Mock.start Mock.remote_track Mock.quiet).
Proof.
  assert (Hlen : (length Mock.rtp_bytes <= receiveMTU)%nat)
    by (simpl; lia).
  destruct (@ReadRTP_serves_peeked Mock.collaborators
              (Mock.start (set_peeked (Some Mock.rtp_bytes) Mock.remote_track)
                          Mock.quiet)
              Mock.rtp_bytes 9 eq_refl eq_refl eq_refl Hlen) as [H _].
  apply H. reflexivity.
Defined.

(** X5, on a receiver that delivers an RTP packet of payload type 96. *)
Lemma determinePayloadType_then_ReadRTP_witness :
  exists p,
    ReadRTP (Mock.state
               (set_payloadType
                  96 (set_peeked (Some Mock.rtp_bytes) Mock.remote_track))
               Mock.quiet [CallReadRTP 9 1460]) =
      Returns (Some p, None)
              (Mock.state (set_payloadType 96 Mock.remote_track)
                          Mock.quiet [CallReadRTP 9 1460]) /\
    rtp.PayloadType (rtp.PacketHeader p) = 96%N.
Proof.
  assert (H : determinePayloadType
                (Mock.start Mock.remote_track (Mock.delivers Mock.rtp_bytes)) =
              Returns None
                      (Mock.state
                         (set_payloadType
                            96 (set_peeked (Some Mock.rtp_bytes)
                                           Mock.remote_track))
                         Mock.quiet [CallReadRTP 9 1460]))
    by (vm_compute; reflexivity).
  exact (@determinePayloadType_then_ReadRTP Mock.collaborators _ _ H).
Defined.

(** X6, on the same receiver. *)
Lemma determinePayloadType_idempotent_witness :
  determinePayloadType
    (Mock.state
       (set_payloadType 96 (set_peeked (Some Mock.rtp_bytes) Mock.remote_track))
       Mock.quiet [CallReadRTP 9 1460]) =
  Returns None
          (Mock.state
             (set_payloadType
                96 (set_peeked (Some Mock.rtp_bytes) Mock.remote_track))
             Mock.quiet [CallReadRTP 9 1460]).
Proof.
  assert (H : determinePayloadType
                (Mock.start Mock.remote_track (Mock.delivers Mock.rtp_bytes)) =
              Returns None
                      (Mock.state
                         (set_payloadType
                            96 (set_peeked (Some Mock.rtp_bytes)
                                           Mock.remote_track))
                         Mock.quiet [CallReadRTP 9 1460]))
    by (vm_compute; reflexivity).
  exact (@determinePayloadType_idempotent Mock.collaborators _ _ H).
Defined.

(** X7, on the local track with three senders. *)
Lemma peek_on_local_track_witness :
  peek (make 4) (Mock.start Mock.local_track Mock.quiet) =
    Returns (make 4, 0%Z, Some errTrackLocalTrackRead)
            (Mock.start Mock.local_track Mock.quiet) /\
  determinePayloadType (Mock.start Mock.local_track Mock.quiet) =
    Returns (Some errTrackLocalTrackRead)
            (Mock.start Mock.local_track Mock.quiet).
Proof.
  apply peek_on_local_track. right. reflexivity.
Defined.

(** X8, on a receiver that delivers an RTP packet, and on the receiver
    that reports 1461 bytes in a buffer of 1460. *)
Lemma ReadRTP_from_receiver_witness :
  ReadRTP (Mock.start Mock.remote_track (Mock.delivers Mock.rtp_bytes)) =
    Returns (Some (rtp.mkPacket (rtp.mkHeader false 96 1 10 6000) [xca; xfe]),
             None)
            (Mock.state Mock.remote_track Mock.quiet [CallReadRTP 9 1460]) /\
  ReadRTP (Mock.lying_state Mock.remote_track Mock.quiet []) = Panics.
Proof.
  split.
  - destruct (@ReadRTP_from_receiver Mock.collaborators
                (Mock.start Mock.remote_track (Mock.delivers Mock.rtp_bytes))
                9 Mock.rtp_bytes 14%Z None Mock.quiet
                eq_refl eq_refl eq_refl eq_refl) as (_ & _ & H).
    destruct (H eq_refl ltac:(simpl; lia)) as [Hp _].
    apply Hp. vm_compute. reflexivity.
  - destruct (@ReadRTP_from_receiver Mock.lying
                (Mock.lying_state Mock.remote_track Mock.quiet [])
                9 [] 1461%Z None Mock.quiet
                eq_refl eq_refl eq_refl eq_refl) as (_ & H & _).
    apply H; [reflexivity | right; simpl; lia].
Defined.

(** X9, on the receiver that reports 1461 bytes in a buffer of 1460. *)
Lemma determinePayloadType_count_out_of_range_witness :
  determinePayloadType (Mock.lying_state Mock.remote_track Mock.quiet []) =
  Panics.
Proof.
  apply (@determinePayloadType_count_out_of_range Mock.lying
           (Mock.lying_state Mock.remote_track Mock.quiet [])
           9 [] 1461%Z Mock.quiet eq_refl eq_refl eq_refl eq_refl).
  right. simpl. lia.
Defined.

(** The receiver of the test doubles keeps the contract. *)
Lemma mock_receiver_in_bounds : @receiver_in_bounds Mock.collaborators.
Proof.
  intros r b t w. simpl. unfold Mock.mock_readRTP.
  destruct (Mock.inbound w) as [|pkt rest]; simpl; [discriminate|].
  destruct (length pkt <=? length b)%nat eqn:Hle; simpl; [|discriminate].
  intros _. apply Nat.leb_le in Hle. lia.
Defined.

(** X10, on a receiver that delivers one packet of four bytes. *)
Lemma inbound_path_returns_witness :
  (exists b' n err s',
      Read (make 8) (Mock.start Mock.remote_track (Mock.delivers Mock.junk)) =
      Returns (b', n, err) s' /\
      (err = None -> (0 <= n <= Z.of_nat (length (make 8)))%Z)) /\
  (exists err s',
      determinePayloadType
        (Mock.start Mock.remote_track (Mock.delivers Mock.junk)) =
      Returns err s').
Proof.
  destruct (@inbound_path_returns Mock.collaborators
              (Mock.start Mock.remote_track (Mock.delivers Mock.junk))
              (make 8) mock_receiver_in_bounds) as (H1 & _ & _ & H4).
  split; [exact H1 | exact H4].
Defined.

(** X13, on the remote track, with bytes that are no packet and with an
    RTP packet, and on a track without sender. *)
Lemma Write_refused_witness :
  Write Mock.junk (Mock.start Mock.remote_track Mock.quiet) =
    Returns (0%Z, Some (Err "RTP header size insufficient"))
            (Mock.start Mock.remote_track Mock.quiet) /\
  Write Mock.rtp_bytes (Mock.start Mock.remote_track Mock.quiet) =
    Returns (0%Z, Some errTrackLocalTrackWrite)
            (Mock.start Mock.remote_track Mock.quiet) /\
  Write Mock.rtp_bytes (Mock.start Mock.fresh_track Mock.quiet) =
    Returns (0%Z, Some ErrClosedPipe)
            (Mock.start Mock.fresh_track Mock.quiet).
Proof.
  split; [|split].
  - destruct (Write_refused (Mock.start Mock.remote_track Mock.quiet)
                            Mock.junk) as [H _].
    apply (H 9). reflexivity.
  - destruct (Write_refused (Mock.start Mock.remote_track Mock.quiet)
                            Mock.rtp_bytes) as [H _].
    apply (H 9). reflexivity.
  - destruct (Write_refused (Mock.start Mock.fresh_track Mock.quiet)
                            Mock.rtp_bytes) as [_ H].
    apply H; reflexivity.
Defined.

(** X15, on a track with a receiver and a packetizer: a sample of one
    byte, and an empty sample. *)
Lemma WriteSample_refused_witness :
  WriteSample (media.mkSample [x01] 1)
              (Mock.start Mock.remote_with_packetizer Mock.quiet) =
    Returns (Some errTrackLocalTrackWrite)
            (Mock.state Mock.remote_with_packetizer (Mock.mkWorld [] [] 0 1)
                        [CallPacketize Mock.pz [x01] 1]) /\
  WriteSample (media.mkSample [] 0)
              (Mock.start Mock.remote_with_packetizer Mock.quiet) =
    Returns None
            (Mock.state Mock.remote_with_packetizer Mock.quiet
                        [CallPacketize Mock.pz [] 0]).
Proof.
  split.
  - apply (@WriteSample_refused Mock.collaborators
             (Mock.start Mock.remote_with_packetizer Mock.quiet)
             (media.mkSample [x01] 1) Mock.pz
             (Mock.one_per_byte Mock.pz [x01] 0) (Mock.mkWorld [] [] 0 1)
             eq_refl eq_refl).
    left. simpl. discriminate.
  - apply (@WriteSample_refused Mock.collaborators
             (Mock.start Mock.remote_with_packetizer Mock.quiet)
             (media.mkSample [] 0) Mock.pz [] Mock.quiet eq_refl eq_refl).
    left. simpl. discriminate.
Defined.

(** X12, on a nil pointer: on the remote track, on the local track with
    three senders, and on the track of which no sender is active; and on
    a pointer to a packet on the local track. *)
Lemma WriteRTP_effects_witness :
  (exists e,
      WriteRTP_ptr None (Mock.start Mock.remote_track Mock.quiet) =
      Returns (Some e) (Mock.start Mock.remote_track Mock.quiet)) /\
  WriteRTP_ptr None (Mock.start Mock.local_track Mock.quiet) = Panics /\
  WriteRTP_ptr None (Mock.start Mock.paused_track Mock.quiet) =
    Returns None (Mock.start Mock.paused_track Mock.quiet) /\
  (exists err s',
      WriteRTP_ptr (Some (Mock.packet 1 [x01]))
                   (Mock.start Mock.local_track Mock.quiet) = Returns err s' /\
      track s' = Mock.local_track /\
      calls s' = send_calls [1; 2; 3] (Mock.packet 1 [x01])).
Proof.
  split; [|split; [|split]].
  - destruct (@WriteRTP_effects Mock.collaborators
                (Mock.start Mock.remote_track Mock.quiet) None) as [H _].
    apply H. left. simpl. discriminate.
  - destruct (@WriteRTP_effects Mock.collaborators
                (Mock.start Mock.local_track Mock.quiet) None) as [_ H].
    destruct (H eq_refl ltac:(simpl; lia)) as (_ & _ & Hp).
    apply Hp; [reflexivity | simpl; discriminate].
  - destruct (@WriteRTP_effects Mock.collaborators
                (Mock.start Mock.paused_track Mock.quiet) None) as [_ H].
    destruct (H eq_refl ltac:(simpl; lia)) as (_ & Hn & _).
    apply Hn; reflexivity.
  - destruct (@WriteRTP_effects Mock.collaborators
                (Mock.start Mock.local_track Mock.quiet)
                (Some (Mock.packet 1 [x01]))) as [_ H].
    destruct (H eq_refl ltac:(simpl; lia)) as (Hs & _ & _).
    exact (Hs (Mock.packet 1 [x01]) eq_refl).
Defined.

(** X16, on a sample of three bytes of which the senders refuse the
    second: WriteSample returns an error, k is 2, and the packet of the
    third byte is not sent. *)
Lemma WriteSample_effects_witness :
  exists err s' k,
    WriteSample (media.mkSample [x01; xff; x03] 3)
                (Mock.start Mock.local_track Mock.quiet) = Returns err s' /\
    track s' = Mock.local_track /\
    (k <= 3)%nat /\
    calls s' =
      CallPacketize Mock.pz [x01; xff; x03] 3
      :: flat_map (sends Mock.local_track)
                  (firstn k (Mock.one_per_byte Mock.pz [x01; xff; x03] 0)) /\
    (err = None ->
     k = 3%nat /\
     writes_ok (Mock.one_per_byte Mock.pz [x01; xff; x03] 0)
               (Mock.state Mock.local_track (Mock.mkWorld [] [] 0 3)
                           [CallPacketize Mock.pz [x01; xff; x03] 3])
               s') /\
    (forall e, err = Some e ->
               exists before p after s2,
                 Mock.one_per_byte Mock.pz [x01; xff; x03] 0 =
                 before ++ p :: after /\
                 k = S (length before) /\
                 writes_ok before
                           (Mock.state Mock.local_track (Mock.mkWorld [] [] 0 3)
                              [CallPacketize Mock.pz [x01; xff; x03] 3])
                           s2 /\
                 WriteRTP p s2 = Returns (Some e) s').
Proof.
  exact (@WriteSample_effects Mock.collaborators
           (Mock.start Mock.local_track Mock.quiet)
           (media.mkSample [x01; xff; x03] 3) Mock.pz
           (Mock.one_per_byte Mock.pz [x01; xff; x03] 0)
           (Mock.mkWorld [] [] 0 3) eq_refl eq_refl).
Defined.

(** X17, on the remote track, which has no packetizer, and on a nil
    pointer. *)
Lemma WriteSample_without_packetizer_witness :
  WriteSample (media.mkSample [x01] 1)
              (Mock.start Mock.remote_track Mock.quiet) = Panics /\
  WriteRTP_ptr None (Mock.start Mock.remote_track Mock.quiet) =
    Returns (Some errTrackLocalTrackWrite)
            (Mock.start Mock.remote_track Mock.quiet).
Proof.
  destruct (@WriteSample_without_packetizer Mock.collaborators
              (Mock.start Mock.remote_track Mock.quiet)
              (media.mkSample [x01] 1) eq_refl) as (H1 & H2 & _).
  split; [exact H1|]. apply H2. simpl. discriminate.
Defined.

(** X18, on ssrc = 5000 with the codec opus. *)
Lemma NewTrack_then_accessors_witness :
  exists t w',
    NewTrack 111 5000 "audio" "pion" (Some Mock.opus) Mock.quiet =
      Returns (Some t, None) w' /\
    Msid (Mock.state t w' []) = Returns "pion audio"%string (Mock.state t w' []) /\
    Packetizer (Mock.state t w' []) =
      Returns (Some Mock.pz) (Mock.state t w' []).
Proof.
  destruct (@NewTrack_then_accessors Mock.collaborators 111 5000 "audio" "pion"
              Mock.opus Mock.quiet ltac:(lia)) as (t & w' & HN & H).
  exists t, w'. split; [exact HN|].
  destruct (H []) as (_ & _ & _ & _ & _ & _ & _ & HM & HP & _).
  split; [exact HM | exact HP].
Defined.

(** X19, on the track that NewTrack makes of ssrc = 5000 and opus. *)
Lemma NewTrack_track_is_closed_witness :
  NewTrack 111 5000 "audio" "pion" (Some Mock.opus) Mock.quiet =
    Returns (Some Mock.fresh_track, None) Mock.quiet /\
  Read (make 4) (Mock.start Mock.fresh_track Mock.quiet) =
    Returns (make 4, 0%Z, Some errTrackLocalTrackRead)
            (Mock.start Mock.fresh_track Mock.quiet) /\
  WriteRTP (Mock.packet 1 [x01]) (Mock.start Mock.fresh_track Mock.quiet) =
    Returns (Some ErrClosedPipe) (Mock.start Mock.fresh_track Mock.quiet).
Proof.
  assert (H : NewTrack 111 5000 "audio" "pion" (Some Mock.opus) Mock.quiet =
              Returns (Some Mock.fresh_track, None) Mock.quiet)
    by reflexivity.
  split; [exact H|].
  destruct (@NewTrack_track_is_closed Mock.collaborators _ _ _ _ _ _ _ _
              [] (make 4) (Mock.packet 1 [x01]) H) as (HR & _ & _ & HW).
  split; [exact HR | exact HW].
Defined.

(** X20, on ssrc = 0 and on ssrc = 7. *)
Lemma NewTrack_without_codec_witness :
  NewTrack 111 0 "audio" "pion" None Mock.quiet =
    Returns (None, Some errTrackSSRCNewTrackZero) Mock.quiet /\
  NewTrack 111 7 "audio" "pion" None Mock.quiet = Panics.
Proof.
  split.
  - destruct (@NewTrack_without_codec Mock.collaborators 111 0 "audio" "pion"
                Mock.quiet) as [H _].
    apply H. reflexivity.
  - destruct (@NewTrack_without_codec Mock.collaborators 111 7 "audio" "pion"
                Mock.quiet) as [_ H].
    apply H. lia.
Defined.
